(** * Focus (Domination): the rules engine of FocusGame.py, Board.py and Player.py

    A shallow embedding of the three Python classes and the properties of
    the engine: move validation, stack resolution, turn and win handling.

    Python values are modelled as the code has them: coordinates and piece
    counts are integers ([Z]), names and colours are strings, a tile is a
    list of colours with the bottom piece first, the [_players] dict is a
    finite map from names to the Player object it refers to, and a method
    call either returns a value or raises an exception, in both cases with
    the state it leaves behind. *)

From stdpp Require Import gmap strings list fin_maps.
From Stdlib Require Import ZArith Lia.

Open Scope Z_scope.

(** ** Python values and exceptions *)

Inductive exn : Type := KeyError | IndexError | TypeError | AttributeError.

(** The values the engine's methods hand back: [False]/[True], a count, a
    message, or a stack of pieces. *)
Inductive pyval : Type :=
| PyBool (b : bool)
| PyInt (z : Z)
| PyStr (s : string)
| PyList (l : list string).

(** A pure computation that may raise. *)
Inductive res (A : Type) : Type :=
| Ok (a : A)
| Err (e : exn).
Arguments Ok {A} a.
Arguments Err {A} e.

(** [l[i]] on a Python list: position of index [i], negative indices count
    from the end, [None] stands for IndexError. *)
Definition py_index {A : Type} (l : list A) (i : Z) : option nat :=
  let n := Z.of_nat (length l) in
  if (0 <=? i) && (i <? n) then Some (Z.to_nat i)
  else if (i <? 0) && (0 <=? i + n) then Some (Z.to_nat (i + n))
  else None.

(** A slice bound: negative bounds count from the end, all bounds are
    clamped to [0, len]. *)
Definition py_slice_bound (len i : Z) : Z :=
  if i <? 0 then Z.max 0 (i + len) else Z.min i len.

(** [l[lo:hi]] *)
Definition py_slice {A : Type} (l : list A) (lo hi : Z) : list A :=
  let n := Z.of_nat (length l) in
  let a := py_slice_bound n lo in
  let b := py_slice_bound n hi in
  take (Z.to_nat (b - a)) (drop (Z.to_nat a) l).

(** [l[lo:]] *)
Definition py_slice_from {A : Type} (l : list A) (lo : Z) : list A :=
  drop (Z.to_nat (py_slice_bound (Z.of_nat (length l)) lo)) l.

(** [c in (0, 1, 2, 3, 4, 5)] *)
Definition in_0_to_5 (c : Z) : bool :=
  existsb (Z.eqb c) [0; 1; 2; 3; 4; 5].

(** ** Player.py *)

Module Player.

Record t : Type := mk {
  name : string;
  color : string;
  reserved : Z;
  captured : Z
}.

Definition init (name color : string) : t := mk name color 0 0.

Definition add_to_reserve (self : t) : t :=
  mk (name self) (color self) (reserved self + 1) (captured self).

Definition add_to_captured (self : t) : t :=
  mk (name self) (color self) (reserved self) (captured self + 1).

Definition play_from_reserve (self : t) : t :=
  mk (name self) (color self) (reserved self - 1) (captured self).

Definition get_reserve (self : t) : Z := reserved self.
Definition get_captured (self : t) : Z := captured self.
Definition get_name (self : t) : string := name self.
Definition get_color (self : t) : string := color self.

End Player.

(** ** Board.py *)

Module Board.

Record t : Type := mk {
  board_layout : list (list (list string))
}.

(** [Board.__init__]: six rows appended in turn, even rows start with the
    first colour, odd rows with the second. *)
Definition init (p1_color p2_color : string) : t :=
  mk (fold_left
        (fun layout i =>
           if i mod 2 =? 0
           then layout ++ [[[p1_color]; [p1_color]; [p2_color];
                            [p2_color]; [p1_color]; [p1_color]]]
           else layout ++ [[[p2_color]; [p2_color]; [p1_color];
                            [p1_color]; [p2_color]; [p2_color]]])
        (seqZ 0 6) []).

(** [self._board_layout[row][col] = new_stack] *)
Definition modify_tile (self : t) (tile_coord : Z * Z)
    (new_stack : list string) : res t :=
  let row_coord := tile_coord.1 in
  let col_coord := tile_coord.2 in
  match py_index (board_layout self) row_coord with
  | None => Err IndexError
  | Some r =>
      match board_layout self !! r with
      | None => Err IndexError
      | Some row =>
          match py_index row col_coord with
          | None => Err IndexError
          | Some c =>
              Ok (mk (<[r := <[c := new_stack]> row]> (board_layout self)))
          end
      end
  end.

Definition return_stack (self : t) (tile_coord : Z * Z) : res pyval :=
  let row_coord := tile_coord.1 in
  let col_coord := tile_coord.2 in
  if (5 <? row_coord) || (row_coord <? 0) then Ok (PyBool false)
  else if (5 <? col_coord) || (col_coord <? 0) then Ok (PyBool false)
  else
    match py_index (board_layout self) row_coord with
    | None => Err IndexError
    | Some r =>
        match board_layout self !! r with
        | None => Err IndexError
        | Some row =>
            match py_index row col_coord with
            | None => Err IndexError
            | Some c =>
                match row !! c with
                | None => Err IndexError
                | Some st => Ok (PyList st)
                end
            end
        end
    end.

End Board.

(** ** FocusGame.py *)

Module FocusGame.

(** Which of the two Player objects a dict entry refers to: the values of
    [_players] are the objects held in [_player1] and [_player2], so a
    change made through the dict is a change of that field. *)
Inductive pref : Type := P1 | P2.

Record t : Type := mk {
  board : Board.t;
  current_player_turn : string;
  player1 : Player.t;
  player2 : Player.t;
  game_state : string;
  players : gmap string pref
}.

(** *** Method calls: state passing with exceptions *)

Inductive result (A : Type) : Type :=
| Ret (a : A) (s : t)
| Raise (e : exn) (s : t).
Arguments Ret {A} a s.
Arguments Raise {A} e s.

Definition M (A : Type) : Type := t -> result A.

Definition ret {A : Type} (a : A) : M A := fun s => Ret a s.

Definition raise {A : Type} (e : exn) : M A := fun s => Raise e s.

Definition bind {A B : Type} (m : M A) (k : A -> M B) : M B :=
  fun s =>
    match m s with
    | Ret a s' => k a s'
    | Raise e s' => Raise e s'
    end.

Definition gets {A : Type} (f : t -> A) : M A := fun s => Ret (f s) s.

Definition modify (f : t -> t) : M unit := fun s => Ret tt (f s).

Definition lift {A : Type} (r : res A) : M A :=
  match r with
  | Ok a => ret a
  | Err e => raise e
  end.

Declare Scope py_scope.
Delimit Scope py_scope with py.
Notation "'let*' x ':=' m 'in' k" := (bind m (fun x => k))
  (at level 10, x name, m at level 99, k at level 200) : py_scope.
Notation "'call' m ';;' k" := (bind m (fun _ => k))
  (at level 10, m at level 99, k at level 200) : py_scope.
Open Scope py_scope.

(** Field updates. *)
Definition set_board (b : Board.t) (s : t) : t :=
  mk b (current_player_turn s) (player1 s) (player2 s) (game_state s)
     (players s).
Definition set_current_player_turn (n : string) (s : t) : t :=
  mk (board s) n (player1 s) (player2 s) (game_state s) (players s).
Definition set_game_state (g : string) (s : t) : t :=
  mk (board s) (current_player_turn s) (player1 s) (player2 s) g
     (players s).

(** The Player object behind a reference, and a method call on it. *)
Definition deref (r : pref) (s : t) : Player.t :=
  match r with
  | P1 => player1 s
  | P2 => player2 s
  end.

Definition update (r : pref) (f : Player.t -> Player.t) (s : t) : t :=
  match r with
  | P1 => mk (board s) (current_player_turn s) (f (player1 s)) (player2 s)
             (game_state s) (players s)
  | P2 => mk (board s) (current_player_turn s) (player1 s) (f (player2 s))
             (game_state s) (players s)
  end.

(** [self._players[player_name]] *)
Definition players_getitem (player_name : string) : M pref :=
  fun s =>
    match players s !! player_name with
    | Some r => Ret r s
    | None => Raise KeyError s
    end.

(** [len(v)] *)
Definition py_len (v : pyval) : M Z :=
  match v with
  | PyList l => ret (Z.of_nat (length l))
  | PyStr s => ret (Z.of_nat (String.length s))
  | _ => raise TypeError
  end.

(** [v[i]] for a stack [v] *)
Definition py_getitem (v : pyval) (i : Z) : M string :=
  match v with
  | PyList l =>
      match py_index l i with
      | Some k =>
          match l !! k with
          | Some x => ret x
          | None => raise IndexError
          end
      | None => raise IndexError
      end
  | _ => raise TypeError
  end.

(** [v[lo:hi]] and [v[lo:]] for a stack [v] *)
Definition py_getslice (v : pyval) (lo hi : Z) : M (list string) :=
  match v with
  | PyList l => ret (py_slice l lo hi)
  | _ => raise TypeError
  end.

Definition py_getslice_from (v : pyval) (lo : Z) : M (list string) :=
  match v with
  | PyList l => ret (py_slice_from l lo)
  | _ => raise TypeError
  end.

(** [FocusGame.__init__] *)
Definition init (player1 player2 : string * string) : t :=
  let player1_color := player1.2 in
  let player2_color := player2.2 in
  let player1_name := player1.1 in
  let player2_name := player2.1 in
  mk (Board.init player1_color player2_color)
     player1_name
     (Player.init player1_name player1_color)
     (Player.init player2_name player2_color)
     "IN PROGRESS"
     (<[player2_name := P2]> (<[player1_name := P1]> ∅)).

Definition determine_game_state : M string :=
  let* p1 := gets player1 in
  let* p2 := gets player2 in
  if 6 <=? Player.get_captured p1 then ret "PLAYER 1 WINS"%string
  else if 6 <=? Player.get_captured p2 then ret "PLAYER 2 WINS"%string
  else ret "IN PROGRESS"%string.

Definition show_pieces (tile_coord : Z * Z) : M pyval :=
  let* b := gets board in
  lift (Board.return_stack b tile_coord).

(** [self._board.modify_tile(tile_coord, new_stack)] *)
Definition board_modify_tile (tile_coord : Z * Z) (new_stack : list string)
    : M unit :=
  let* b := gets board in
  let* b' := lift (Board.modify_tile b tile_coord new_stack) in
  modify (set_board b').

(** [v.append(x)] and [v.extend(xs)] where [v] is what
    [show_pieces(tile_coord)] returned: [return_stack] hands out the list
    object of the tile itself, so the tile changes with it. *)
Definition list_extend (tile_coord : Z * Z) (v : pyval) (xs : list string)
    : M (list string) :=
  match v with
  | PyList l =>
      call board_modify_tile tile_coord (l ++ xs) ;;
      ret (l ++ xs)
  | _ => raise AttributeError
  end.

Definition list_append (tile_coord : Z * Z) (v : pyval) (x : string)
    : M (list string) :=
  list_extend tile_coord v [x].

(** A loop body run once for each index, in order. *)
Fixpoint for_each (l : list Z) (body : Z -> M unit) : M unit :=
  match l with
  | [] => ret tt
  | i :: l' => call body i ;; for_each l' body
  end.

Definition basic_move_validation (player_name : string)
    (from_coordinates to_coordinates : Z * Z) (number_of_pieces : Z)
    : M bool :=
  let all_coords := [from_coordinates.1; from_coordinates.2;
                     to_coordinates.1; to_coordinates.2] in
  if existsb (fun coords => negb (in_0_to_5 coords)) all_coords
  then ret false else
  let* gs := gets game_state in
  if decide (gs ≠ "IN PROGRESS"%string) then ret false else
  let* cur := gets current_player_turn in
  if decide (player_name ≠ cur) then ret false else
  let* no_piece :=
    (if number_of_pieces =? 1
     then let* st := show_pieces from_coordinates in
          let* n := py_len st in
          ret (n =? 0)
     else ret false) in
  if no_piece then ret false else
  let* st := show_pieces from_coordinates in
  let* n := py_len st in
  if n =? 0 then ret false else
  let* st := show_pieces from_coordinates in
  let* top := py_getitem st (-1) in
  let* player := players_getitem player_name in
  let* c := gets (fun s => Player.get_color (deref player s)) in
  if decide (top ≠ c) then ret false else
  let* bad_count :=
    (if number_of_pieces <? 0 then ret true
     else let* st := show_pieces from_coordinates in
          let* n := py_len st in
          ret (n <? number_of_pieces)) in
  if bad_count then ret false else
  if negb (Z.abs (to_coordinates.1 - from_coordinates.1) =? number_of_pieces)
     && negb (Z.abs (to_coordinates.2 - from_coordinates.2)
              =? number_of_pieces)
  then ret false else
  if negb (to_coordinates.1 =? from_coordinates.1)
     && negb (to_coordinates.2 =? to_coordinates.2)
  then ret false else
  ret true.

(** The [while i < pieces_to_resolve_cnt] loop visits the indices
    0, 1, ..., pieces_to_resolve_cnt - 1 in this order. *)
Definition resolve_stacks (input_stack : list string)
    (player_name : string) : M (list string) :=
  let pieces_to_resolve_cnt := Z.of_nat (length input_stack) - 5 in
  let* player := players_getitem player_name in
  call for_each (seqZ 0 pieces_to_resolve_cnt) (fun i =>
    let* current_piece := py_getitem (PyList input_stack) i in
    let* c := gets (fun s => Player.get_color (deref player s)) in
    if decide (current_piece = c)
    then modify (update player Player.add_to_reserve)
    else modify (update player Player.add_to_captured)) ;;
  let new_stack := py_slice_from input_stack pieces_to_resolve_cnt in
  ret new_stack.

Definition single_move (player_name : string)
    (from_coordinates to_coordinates : Z * Z) : M unit :=
  let* player := players_getitem player_name in
  let* old_stack := show_pieces from_coordinates in
  let* n := py_len old_stack in
  let* old_stack := py_getslice old_stack 0 (n - 1) in
  let* new_stack := show_pieces to_coordinates in
  let* c := gets (fun s => Player.get_color (deref player s)) in
  let* new_stack := list_append to_coordinates new_stack c in
  let* new_stack :=
    (if 5 <? Z.of_nat (length new_stack)
     then resolve_stacks new_stack player_name
     else ret new_stack) in
  call board_modify_tile from_coordinates old_stack ;;
  board_modify_tile to_coordinates new_stack.

Definition multiple_move (player_name : string)
    (from_coordinates to_coordinates : Z * Z) (number_of_pieces : Z)
    : M unit :=
  let* new_stack := show_pieces to_coordinates in
  let* old_stack := show_pieces from_coordinates in
  let* n := py_len old_stack in
  let* old_stack := py_getslice old_stack 0 (n - number_of_pieces) in
  let* st := show_pieces from_coordinates in
  let* pieces_to_move := py_getslice_from st (- number_of_pieces) in
  let* new_stack := list_extend to_coordinates new_stack pieces_to_move in
  let* new_stack :=
    (if 5 <? Z.of_nat (length new_stack)
     then resolve_stacks new_stack player_name
     else ret new_stack) in
  call board_modify_tile from_coordinates old_stack ;;
  board_modify_tile to_coordinates new_stack.

Definition move_piece (player_name : string)
    (from_coordinates to_coordinates : Z * Z) (number_of_pieces : Z)
    : M pyval :=
  let* valid := basic_move_validation player_name from_coordinates
                  to_coordinates number_of_pieces in
  if negb valid then ret (PyBool false) else
  let* result :=
    (if number_of_pieces =? 1
     then call single_move player_name from_coordinates to_coordinates ;;
          ret "successfully moved"%string
     else call multiple_move player_name from_coordinates to_coordinates
                 number_of_pieces ;;
          ret "successfully moved"%string) in
  let* cur := gets current_player_turn in
  let* p1 := gets player1 in
  let* p2 := gets player2 in
  call (if decide (cur = Player.get_name p1)
        then modify (set_current_player_turn (Player.get_name p2))
        else modify (set_current_player_turn (Player.get_name p1))) ;;
  let* gs := determine_game_state in
  call modify (set_game_state gs) ;;
  let* gs := gets game_state in
  if decide (gs = "PLAYER 1 WINS"%string \/ gs = "PLAYER 2 WINS"%string)
  then let* cur := gets current_player_turn in
       ret (PyStr (cur +:+ " wins"))
  else ret (PyStr result).

Definition show_reserve (player_name : string) : M pyval :=
  let* p1 := gets player1 in
  if decide (Player.get_name p1 = player_name)
  then ret (PyInt (Player.get_reserve p1))
  else
    let* p2 := gets player2 in
    if decide (Player.get_name p2 = player_name)
    then ret (PyInt (Player.get_reserve p2))
    else ret (PyBool false).

Definition show_captured (player_name : string) : M pyval :=
  let* p1 := gets player1 in
  if decide (Player.get_name p1 = player_name)
  then ret (PyInt (Player.get_captured p1))
  else
    let* p2 := gets player2 in
    if decide (Player.get_name p2 = player_name)
    then ret (PyInt (Player.get_captured p2))
    else ret (PyBool false).

Definition reserved_move (player_name : string) (to_coordinates : Z * Z)
    : M pyval :=
  let* player := players_getitem player_name in
  let* to_stack := show_pieces to_coordinates in
  let* r := gets (fun s => Player.get_reserve (deref player s)) in
  if r =? 0 then ret (PyBool false) else
  let* cur := gets current_player_turn in
  if decide (player_name ≠ cur) then ret (PyBool false) else
  let all_coords := [to_coordinates.1; to_coordinates.2] in
  if existsb (fun coords => negb (in_0_to_5 coords)) all_coords
  then ret (PyBool false) else
  call modify (update player Player.play_from_reserve) ;;
  let new_stack := to_stack in
  let* c := gets (fun s => Player.get_color (deref player s)) in
  let* new_stack := list_append to_coordinates new_stack c in
  let* new_stack :=
    (if 5 <? Z.of_nat (length new_stack)
     then resolve_stacks new_stack player_name
     else ret new_stack) in
  call board_modify_tile to_coordinates new_stack ;;
  let* cur := gets current_player_turn in
  let* p1 := gets player1 in
  let* p2 := gets player2 in
  call (if decide (cur = Player.get_name p1)
        then modify (set_current_player_turn (Player.get_name p2))
        else modify (set_current_player_turn (Player.get_name p1))) ;;
  let* gs := determine_game_state in
  call modify (set_game_state gs) ;;
  let* gs := gets game_state in
  if decide (gs = "PLAYER 1 WINS"%string \/ gs = "PLAYER 2 WINS"%string)
  then let* cur := gets current_player_turn in
       ret (PyStr (cur +:+ " wins"))
  else ret (PyBool true).

End FocusGame.

Import FocusGame.

(** ** Vocabulary of the properties *)

(** The stack at a tile, and a board with one tile replaced. *)
Definition tile (b : Board.t) (rc : Z * Z) : list string :=
  default []
    (row ← Board.board_layout b !! Z.to_nat rc.1; row !! Z.to_nat rc.2).

Definition set_tile (b : Board.t) (rc : Z * Z) (l : list string) : Board.t :=
  Board.mk (alter (fun row => <[Z.to_nat rc.2 := l]> row) (Z.to_nat rc.1)
              (Board.board_layout b)).

Definition on_board (rc : Z * Z) : Prop :=
  (0 <= rc.1 <= 5) /\ (0 <= rc.2 <= 5).

Definition six_by_six (b : Board.t) : Prop :=
  length (Board.board_layout b) = 6%nat /\
  Forall (fun row => length row = 6%nat) (Board.board_layout b).

(** A property of every stack on the board. *)
Definition all_tiles (P : list string -> Prop) (b : Board.t) : Prop :=
  Forall (Forall P) (Board.board_layout b).

(** The pieces that leave an oversized stack, bottom first, and the five
    that stay. *)
Definition overflow (l : list string) : list string :=
  take (length l - 5) l.

Definition top5 (l : list string) : list string :=
  drop (length l - 5) l.

(** One resolved piece goes to the reserve or to the captures of the
    player behind [r]; [credit] does so for a run of pieces, first to
    last. *)
Definition credit_piece (r : pref) (s : t) (piece : string) : t :=
  if decide (piece = Player.get_color (deref r s))
  then update r Player.add_to_reserve s
  else update r Player.add_to_captured s.

Definition credit (r : pref) (pieces : list string) (s : t) : t :=
  fold_left (credit_piece r) pieces s.

Definition count_color (c : string) (l : list string) : Z :=
  Z.of_nat (length (filter (fun x => x = c) l)).

Definition count_other (c : string) (l : list string) : Z :=
  Z.of_nat (length (filter (fun x => x <> c) l)).

(** Win states. *)
Definition win_state (g : string) : Prop :=
  g = "PLAYER 1 WINS"%string \/ g = "PLAYER 2 WINS"%string.

(** What the geometry test of the validation asks of a request. *)
Definition geometry (from_coordinates to_coordinates : Z * Z)
    (number_of_pieces : Z) : Prop :=
  Z.abs (to_coordinates.1 - from_coordinates.1) = number_of_pieces \/
  Z.abs (to_coordinates.2 - from_coordinates.2) = number_of_pieces.

(** The state an engine is in between two calls: a full board, the dict
    built by [__init__], one of the two players to move. *)
Definition wf (s : t) : Prop :=
  six_by_six (board s) /\
  players s = <[Player.get_name (player2 s) := P2]>
                (<[Player.get_name (player1 s) := P1]> ∅) /\
  (current_player_turn s = Player.get_name (player1 s) \/
   current_player_turn s = Player.get_name (player2 s)).

(** Pieces on the board and in the two players' hands. *)
Definition pieces_on_board (b : Board.t) : Z :=
  foldr Z.add 0
    (map (fun row => foldr Z.add 0 (map (fun st => Z.of_nat (length st)) row))
       (Board.board_layout b)).

Definition total_pieces (s : t) : Z :=
  pieces_on_board (board s)
  + Player.get_reserve (player1 s) + Player.get_reserve (player2 s)
  + Player.get_captured (player1 s) + Player.get_captured (player2 s).

(** Calls of the public operations that change a game, and the state a
    sequence of calls leaves, whether a call returns or raises. *)
Inductive api_call : Type :=
| MovePiece (player_name : string) (from_coordinates to_coordinates : Z * Z)
    (number_of_pieces : Z)
| ReservedMove (player_name : string) (to_coordinates : Z * Z).

Definition state_of {A : Type} (r : result A) : t :=
  match r with
  | Ret _ s => s
  | Raise _ s => s
  end.

Definition perform (s : t) (c : api_call) : t :=
  match c with
  | MovePiece p f d n => state_of (move_piece p f d n s)
  | ReservedMove p d => state_of (reserved_move p d s)
  end.

Definition play (calls : list api_call) (s : t) : t :=
  fold_left perform calls s.

(** What the calls of a sequence return, [None] for a call that raises. *)
Fixpoint replies (calls : list api_call) (s : t) : list (option pyval) :=
  match calls with
  | [] => []
  | c :: calls' =>
      match c with
      | MovePiece p f d n =>
          match move_piece p f d n s with
          | Ret v _ => Some v
          | Raise _ _ => None
          end
      | ReservedMove p d =>
          match reserved_move p d s with
          | Ret v _ => Some v
          | Raise _ _ => None
          end
      end :: replies calls' (perform s c)
  end.

(** Turn hand-over and status update as both [move_piece] and
    [reserved_move] end. *)
Definition next_turn (s : t) : t :=
  if decide (current_player_turn s = Player.get_name (player1 s))
  then set_current_player_turn (Player.get_name (player2 s)) s
  else set_current_player_turn (Player.get_name (player1 s)) s.

Definition status_of (s : t) : string :=
  if 6 <=? Player.get_captured (player1 s) then "PLAYER 1 WINS"
  else if 6 <=? Player.get_captured (player2 s) then "PLAYER 2 WINS"
  else "IN PROGRESS".

Definition finish (s : t) : t :=
  set_game_state (status_of (next_turn s)) (next_turn s).

Definition report (ok : pyval) (s : t) : pyval :=
  if decide (win_state (game_state s))
  then PyStr (current_player_turn s +:+ " wins")
  else ok.

(** A method body keeps a relation between the state it starts in and the
    state it leaves, whether it returns or raises. *)
Definition keeps {A : Type} (R : t -> t -> Prop) (m : M A) : Prop :=
  forall s, R s (state_of (m s)).

(** Who plays, with which colour, whose turn it is and the status: what
    moving pieces about does not touch. *)
Definition same_seats (s s' : t) : Prop :=
  current_player_turn s' = current_player_turn s /\
  game_state s' = game_state s /\
  players s' = players s /\
  Player.get_name (player1 s') = Player.get_name (player1 s) /\
  Player.get_name (player2 s') = Player.get_name (player2 s) /\
  Player.get_color (player1 s') = Player.get_color (player1 s) /\
  Player.get_color (player2 s') = Player.get_color (player2 s).

(** The end of [move_piece] and of [reserved_move], from the hand-over of
    the turn on; [ok] is what the call returns when nobody has won. *)
Definition end_of_turn (ok : pyval) : M pyval :=
  let* cur := gets current_player_turn in
  let* p1 := gets player1 in
  let* p2 := gets player2 in
  call (if decide (cur = Player.get_name p1)
        then modify (set_current_player_turn (Player.get_name p2))
        else modify (set_current_player_turn (Player.get_name p1))) ;;
  let* gs := determine_game_state in
  call modify (set_game_state gs) ;;
  let* gs := gets game_state in
  if decide (gs = "PLAYER 1 WINS"%string \/ gs = "PLAYER 2 WINS"%string)
  then let* cur := gets current_player_turn in
       ret (PyStr (cur +:+ " wins"))
  else ret ok.

(** The state after pieces have been put on a tile: [old] is what stays on
    the source tile, [new] the destination stack before resolution; the
    player behind [r] is credited with what overflows. *)
Definition place (r : pref) (f d : Z * Z) (old new : list string) (s : t) : t :=
  set_board (set_tile (set_tile (board s) f old) d (top5 new))
    (credit r (overflow new) s).

(** The state a successful [move_piece] leaves, for the player behind
    [r]. *)
Definition move_result (r : pref) (f d : Z * Z) (n : Z) (s : t) : t :=
  let F := tile (board s) f in
  finish
    (place r f d (py_slice F 0 (Z.of_nat (length F) - n))
       (tile (board s) d ++
          (if n =? 1 then [Player.get_color (deref r s)]
           else py_slice_from F (- n)))
       s).

(** The state a successful [reserved_move] leaves. *)
Definition reserve_result (r : pref) (d : Z * Z) (s : t) : t :=
  let new := tile (board s) d ++ [Player.get_color (deref r s)] in
  finish
    (set_board (set_tile (board s) d (top5 new))
       (credit r (overflow new) (update r Player.play_from_reserve s))).

(** What holds of the engine between two calls. *)
Definition inv (s : t) : Prop :=
  wf s /\ all_tiles (fun st => (length st <= 5)%nat) (board s).

(** The call as the engine runs it, and who makes it. *)
Definition invoke (c : api_call) : M pyval :=
  match c with
  | MovePiece p f d n => move_piece p f d n
  | ReservedMove p d => reserved_move p d
  end.

Definition caller (c : api_call) : string :=
  match c with
  | MovePiece p _ _ _ => p
  | ReservedMove p _ => p
  end.

(** The test of lines 108-109 as a boolean. *)
Definition geometryb (f d : Z * Z) (n : Z) : bool :=
  (Z.abs (d.1 - f.1) =? n) || (Z.abs (d.2 - f.2) =? n).

(** Where a call puts pieces, and the stack that stands there once they
    are on it and before it is resolved. *)
Definition destination (c : api_call) : Z * Z :=
  match c with
  | MovePiece _ _ d _ => d
  | ReservedMove _ d => d
  end.

Definition landing (r : pref) (c : api_call) (s : t) : list string :=
  match c with
  | MovePiece _ f d n =>
      tile (board s) d ++
        (if n =? 1 then [Player.get_color (deref r s)]
         else py_slice_from (tile (board s) f) (- n))
  | ReservedMove _ d => tile (board s) d ++ [Player.get_color (deref r s)]
  end.

(** The reserve a call spends before it puts pieces down. *)
Definition reserve_spent (c : api_call) : Z :=
  match c with
  | MovePiece _ _ _ _ => 0
  | ReservedMove _ _ => 1
  end.

(** What a successful call says about the turn: it goes to the other
    name, the status is the one [determine_game_state] gives, and a win is
    announced under the name of the new turn holder. *)
Definition turn_passed (p : string) (s s' : t) (v : pyval) : Prop :=
  current_player_turn s' =
    (if decide (p = Player.get_name (player1 s))
     then Player.get_name (player2 s) else Player.get_name (player1 s)) /\
  (Player.get_name (player1 s) <> Player.get_name (player2 s) ->
   current_player_turn s' <> p) /\
  determine_game_state s' = Ret (game_state s') s' /\
  (win_state (game_state s') ->
   v = PyStr (current_player_turn s' +:+ " wins")).

(** The state in which the pieces of a call are put down: a reserve play
    has taken one piece out of the reserve by then. *)
Definition spend (r : pref) (c : api_call) (s : t) : t :=
  match c with
  | MovePiece _ _ _ _ => s
  | ReservedMove _ _ => update r Player.play_from_reserve s
  end.

(** Pieces held by the two players, in reserve or captured. *)
Definition pieces_in_hand (s : t) : Z :=
  Player.get_reserve (player1 s) + Player.get_reserve (player2 s)
  + Player.get_captured (player1 s) + Player.get_captured (player2 s).

(** A request for at least one piece; a reserve play always plays one. *)
Definition at_least_one_piece (c : api_call) : Prop :=
  match c with
  | MovePiece _ _ _ n => 1 <= n
  | ReservedMove _ _ => True
  end.

(** ** Sample games *)

Definition new_game : t := init ("A", "R")%string ("B", "G")%string.

(** Player B piles five of its pieces on (3,5) and a sixth, which goes to
    its reserve; player A then takes the pile over and captures six. *)
Definition winning_game : list api_call :=
  [ MovePiece "A" (0,5) (1,5) 1; MovePiece "B" (1,0) (1,1) 1;
    MovePiece "A" (4,5) (5,5) 1; MovePiece "B" (1,1) (3,1) 2;
    MovePiece "A" (0,0) (0,1) 1; MovePiece "B" (3,0) (3,1) 1;
    MovePiece "A" (2,0) (2,1) 1; MovePiece "B" (3,1) (3,5) 4;
    MovePiece "A" (4,0) (4,1) 1; MovePiece "B" (3,4) (3,5) 1;
    MovePiece "A" (1,5) (3,5) 2; MovePiece "B" (5,0) (5,1) 1;
    MovePiece "A" (5,5) (3,5) 2; MovePiece "B" (0,2) (0,3) 1;
    MovePiece "A" (2,5) (3,5) 1; MovePiece "B" (2,2) (2,3) 1;
    MovePiece "A" (3,3) (3,4) 1; MovePiece "B" (4,2) (4,3) 1;
    MovePiece "A" (3,4) (3,5) 1 ]%string.

Definition game_won : t := play winning_game new_game.

(** No counter of a player is negative. *)
Definition counters_nonneg (s : t) : Prop :=
  0 <= Player.get_reserve (player1 s) /\
  0 <= Player.get_reserve (player2 s) /\
  0 <= Player.get_captured (player1 s) /\
  0 <= Player.get_captured (player2 s).

(** The state an accepted call leaves, for the player behind [r]. *)
Definition call_result (r : pref) (c : api_call) (s : t) : t :=
  match c with
  | MovePiece _ f d n => move_result r f d n s
  | ReservedMove _ d => reserve_result r d s
  end.

(** The two Player objects keep their names and colours, and the dict its
    entries. *)
Definition same_players (s s' : t) : Prop :=
  players s' = players s /\
  Player.get_name (player1 s') = Player.get_name (player1 s) /\
  Player.get_name (player2 s') = Player.get_name (player2 s) /\
  Player.get_color (player1 s') = Player.get_color (player1 s) /\
  Player.get_color (player2 s') = Player.get_color (player2 s).

(** A stack of pieces of the colours [c1] and [c2] only. *)
Definition two_colors (c1 c2 : string) (st : list string) : Prop :=
  Forall (fun x => x = c1 \/ x = c2) st.

(** ** Python lists *)

Lemma py_index_in_range {A : Type} (l : list A) (i : Z) :
  0 <= i < Z.of_nat (length l) -> py_index l i = Some (Z.to_nat i).
Proof.
  intros H. unfold py_index.
  replace (0 <=? i) with true by (symmetry; apply Z.leb_le; lia).
  replace (i <? Z.of_nat (length l)) with true
    by (symmetry; apply Z.ltb_lt; lia).
  reflexivity.
Qed.

Lemma py_index_top {A : Type} (l : list A) :
  l <> [] -> py_index l (-1) = Some (length l - 1)%nat.
Proof.
  intros H. unfold py_index.
  assert (0 < length l)%nat by (destruct l; [done | simpl; lia]).
  replace (0 <=? -1) with false by reflexivity. simpl.
  replace (0 <=? -1 + Z.of_nat (length l)) with true
    by (symmetry; apply Z.leb_le; lia).
  f_equal. lia.
Qed.

Lemma py_slice_prefix {A : Type} (l : list A) (n : Z) :
  0 <= n <= Z.of_nat (length l) ->
  py_slice l 0 (Z.of_nat (length l) - n) = take (length l - Z.to_nat n) l.
Proof.
  intros H. unfold py_slice, py_slice_bound. simpl.
  replace (Z.of_nat (length l) - n <? 0) with false
    by (symmetry; apply Z.ltb_ge; lia).
  rewrite Z.min_l by lia. rewrite Z.min_l by lia. simpl.
  f_equal. lia.
Qed.

Lemma py_slice_from_drop {A : Type} (l : list A) (k : Z) :
  0 <= k -> py_slice_from l k = drop (Z.to_nat k) l.
Proof.
  intros H. unfold py_slice_from, py_slice_bound.
  replace (k <? 0) with false by (symmetry; apply Z.ltb_ge; lia).
  destruct (Z.le_ge_cases k (Z.of_nat (length l))).
  - rewrite Z.min_l by lia. reflexivity.
  - rewrite Z.min_r by lia. rewrite Nat2Z.id.
    rewrite drop_all. symmetry. apply drop_ge. lia.
Qed.

(** [l[-n:]] is the top [n] pieces when [1 <= n <= len(l)]. *)
Lemma py_slice_from_top {A : Type} (l : list A) (n : Z) :
  0 < n <= Z.of_nat (length l) ->
  py_slice_from l (- n) = drop (length l - Z.to_nat n) l.
Proof.
  intros H. unfold py_slice_from, py_slice_bound.
  replace (- n <? 0) with true by (symmetry; apply Z.ltb_lt; lia).
  f_equal. lia.
Qed.

(** [l[-0:]] is [l[0:]], the whole list. *)
Lemma py_slice_from_minus_zero {A : Type} (l : list A) :
  py_slice_from l (- 0) = l.
Proof.
  unfold py_slice_from, py_slice_bound. simpl.
  rewrite Z.min_l by lia. reflexivity.
Qed.

Lemma in_0_to_5_spec (c : Z) : in_0_to_5 c = true <-> 0 <= c <= 5.
Proof.
  unfold in_0_to_5. simpl. rewrite !orb_true_iff, !Z.eqb_eq. lia.
Qed.

Lemma length_top5 (l : list string) :
  (5 < length l)%nat -> length (top5 l) = 5%nat.
Proof. intros H. unfold top5. rewrite length_drop. lia. Qed.

Lemma length_top5_le (l : list string) : (length (top5 l) <= 5)%nat.
Proof. unfold top5. rewrite length_drop. lia. Qed.

Lemma overflow_top5 (l : list string) : overflow l ++ top5 l = l.
Proof. unfold overflow, top5. apply take_drop. Qed.

(** ** The board *)

Lemma on_board_in_0_to_5 (rc : Z * Z) :
  on_board rc <-> in_0_to_5 rc.1 = true /\ in_0_to_5 rc.2 = true.
Proof. unfold on_board. rewrite !in_0_to_5_spec. tauto. Qed.

Lemma six_by_six_row (b : Board.t) (rc : Z * Z) :
  six_by_six b -> on_board rc ->
  exists row, Board.board_layout b !! Z.to_nat rc.1 = Some row /\
              length row = 6%nat /\
              row !! Z.to_nat rc.2 = Some (tile b rc).
Proof.
  intros [Hlen Hrows] [Hr Hc].
  destruct (lookup_lt_is_Some_2 (Board.board_layout b) (Z.to_nat rc.1))
    as [row Hrow]; [lia |].
  exists row. split; [exact Hrow |].
  assert (Hrl : length row = 6%nat).
  { eapply (proj1 (Forall_lookup _ _) Hrows); eauto. }
  split; [exact Hrl |].
  destruct (lookup_lt_is_Some_2 row (Z.to_nat rc.2)) as [st Hst]; [lia |].
  unfold tile. rewrite Hrow. simpl. rewrite Hst. reflexivity.
Qed.

Lemma return_stack_on_board (b : Board.t) (rc : Z * Z) :
  six_by_six b -> on_board rc ->
  Board.return_stack b rc = Ok (PyList (tile b rc)).
Proof.
  intros Hb Hrc.
  destruct (six_by_six_row b rc Hb Hrc) as (row & Hrow & Hlen & Hst).
  destruct Hb as [Hl _]. destruct Hrc as [Hr Hc].
  unfold Board.return_stack.
  replace (5 <? rc.1) with false by (symmetry; apply Z.ltb_ge; lia).
  replace (rc.1 <? 0) with false by (symmetry; apply Z.ltb_ge; lia).
  replace (5 <? rc.2) with false by (symmetry; apply Z.ltb_ge; lia).
  replace (rc.2 <? 0) with false by (symmetry; apply Z.ltb_ge; lia).
  simpl.
  rewrite py_index_in_range by lia. rewrite Hrow.
  rewrite py_index_in_range by lia. rewrite Hst. reflexivity.
Qed.

Lemma return_stack_off_board (b : Board.t) (rc : Z * Z) :
  ~ on_board rc -> Board.return_stack b rc = Ok (PyBool false).
Proof.
  intros Hrc. unfold on_board in Hrc. unfold Board.return_stack.
  destruct (5 <? rc.1) eqn:E1; [reflexivity |].
  destruct (rc.1 <? 0) eqn:E2; [reflexivity |].
  destruct (5 <? rc.2) eqn:E3; [reflexivity |].
  destruct (rc.2 <? 0) eqn:E4; [reflexivity |].
  apply Z.ltb_ge in E1, E2, E3, E4. lia.
Qed.

Lemma insert_as_alter {A : Type} (l : list A) (i : nat) (x : A) (f : A -> A) :
  l !! i = Some x -> <[i := f x]> l = alter f i l.
Proof.
  revert i. induction l as [| y l IH]; intros [| i] H; simpl in *;
    try discriminate.
  - injection H as ->. reflexivity.
  - f_equal. apply IH. exact H.
Qed.

Lemma modify_tile_on_board (b : Board.t) (rc : Z * Z) (l : list string) :
  six_by_six b -> on_board rc ->
  Board.modify_tile b rc l = Ok (set_tile b rc l).
Proof.
  intros Hb Hrc.
  destruct (six_by_six_row b rc Hb Hrc) as (row & Hrow & Hlen & Hst).
  destruct Hb as [Hl _]. destruct Hrc as [Hr Hc].
  unfold Board.modify_tile, set_tile.
  rewrite py_index_in_range by lia. rewrite Hrow.
  rewrite py_index_in_range by lia.
  rewrite (insert_as_alter _ _ row (fun row => <[Z.to_nat rc.2 := l]> row))
    by exact Hrow.
  reflexivity.
Qed.

Lemma six_by_six_set_tile (b : Board.t) (rc : Z * Z) (l : list string) :
  six_by_six b -> six_by_six (set_tile b rc l).
Proof.
  intros [Hl Hrows]. split; simpl.
  - rewrite length_alter. exact Hl.
  - apply Forall_alter; [exact Hrows |].
    intros row _ Hrow. rewrite length_insert. exact Hrow.
Qed.

Lemma all_tiles_set_tile (P : list string -> Prop) (b : Board.t)
    (rc : Z * Z) (l : list string) :
  all_tiles P b -> P l -> all_tiles P (set_tile b rc l).
Proof.
  intros Hb Hl. unfold all_tiles, set_tile. simpl.
  apply Forall_alter; [exact Hb |].
  intros row _ Hrow. apply Forall_insert; assumption.
Qed.

Lemma all_tiles_tile (P : list string -> Prop) (b : Board.t) (rc : Z * Z) :
  all_tiles P b -> P [] -> P (tile b rc).
Proof.
  intros Hall Hnil. unfold tile.
  destruct (Board.board_layout b !! Z.to_nat rc.1) as [row |] eqn:Hrow;
    simpl; [| exact Hnil].
  destruct (row !! Z.to_nat rc.2) as [st |] eqn:Hst; simpl; [| exact Hnil].
  eapply (proj1 (Forall_lookup _ _)); [| exact Hst].
  eapply (proj1 (Forall_lookup _ _) Hall). exact Hrow.
Qed.

Lemma tile_set_tile_same (b : Board.t) (rc : Z * Z) (l : list string) :
  six_by_six b -> on_board rc -> tile (set_tile b rc l) rc = l.
Proof.
  intros Hb Hrc.
  destruct (six_by_six_row b rc Hb Hrc) as (row & Hrow & Hlen & Hst).
  destruct Hrc as [Hr Hc].
  unfold tile, set_tile. simpl.
  rewrite list_lookup_alter_eq, Hrow. simpl.
  rewrite list_lookup_insert_eq by lia. reflexivity.
Qed.

Lemma tile_set_tile_other (b : Board.t) (rc rc' : Z * Z) (l : list string) :
  on_board rc -> on_board rc' -> rc <> rc' ->
  tile (set_tile b rc l) rc' = tile b rc'.
Proof.
  intros [Hr Hc] [Hr' Hc'] Hne.
  unfold tile, set_tile. simpl.
  destruct (decide (Z.to_nat rc.1 = Z.to_nat rc'.1)) as [E | E].
  - rewrite <- E, list_lookup_alter_eq.
    destruct (Board.board_layout b !! Z.to_nat rc.1) as [row |]; simpl;
      [| reflexivity].
    rewrite list_lookup_insert_ne; [reflexivity |].
    intros E2. apply Hne. destruct rc, rc'. simpl in *. f_equal; lia.
  - rewrite list_lookup_alter_ne by exact E. reflexivity.
Qed.

Lemma insert_twice {A : Type} (row : list A) (c : nat) (x y : A) :
  <[c := y]> (<[c := x]> row) = <[c := y]> row.
Proof.
  revert c. induction row as [| z row IH]; intros [| c]; simpl;
    try reflexivity. f_equal. apply IH.
Qed.

Lemma insert_overwrite {A : Type} (row : list A) (c c' : nat) (x o y : A) :
  <[c := y]> (<[c' := o]> (<[c := x]> row)) = <[c := y]> (<[c' := o]> row).
Proof.
  revert c c'. induction row as [| z row IH]; intros [| c] [| c']; simpl;
    try reflexivity; f_equal; try apply IH.
  apply insert_twice.
Qed.

(** Writing a tile twice keeps the second write, whatever was written to
    another tile in between. *)
Lemma set_tile_overwrite (b : Board.t) (f d : Z * Z) (x o y : list string) :
  set_tile (set_tile (set_tile b d x) f o) d y = set_tile (set_tile b f o) d y.
Proof.
  unfold set_tile. simpl. f_equal.
  generalize (Z.to_nat d.1) (Z.to_nat f.1) (Z.to_nat d.2) (Z.to_nat f.2).
  intros r r' c c'. revert r r'.
  induction (Board.board_layout b) as [| row l IH]; intros [| r] [| r'];
    simpl; try reflexivity; f_equal; try apply IH.
  - apply insert_overwrite.
  - apply insert_twice.
  - clear IH. revert r. induction l as [| row' l IH]; intros [| r]; simpl;
      try reflexivity; f_equal; try apply IH.
    apply insert_twice.
Qed.

(** ** Running method bodies *)

Lemma bind_ret {A B : Type} (a : A) (k : A -> M B) (s : t) :
  bind (ret a) k s = k a s.
Proof. reflexivity. Qed.

Lemma bind_raise {A B : Type} (e : exn) (k : A -> M B) (s : t) :
  bind (raise e) k s = Raise e s.
Proof. reflexivity. Qed.

Lemma bind_gets {A B : Type} (f : t -> A) (k : A -> M B) (s : t) :
  bind (gets f) k s = k (f s) s.
Proof. reflexivity. Qed.

Lemma bind_modify {B : Type} (f : t -> t) (k : unit -> M B) (s : t) :
  bind (modify f) k s = k tt (f s).
Proof. reflexivity. Qed.

Lemma bind_bind {A B C : Type} (m : M A) (k : A -> M B) (k' : B -> M C)
    (s : t) :
  bind (bind m k) k' s = bind m (fun a => bind (k a) k') s.
Proof. unfold bind. destruct (m s); reflexivity. Qed.

Lemma bind_if {A B : Type} (c : bool) (m1 m2 : M A) (k : A -> M B) (s : t) :
  bind (if c then m1 else m2) k s = if c then bind m1 k s else bind m2 k s.
Proof. destruct c; reflexivity. Qed.

Lemma if_apply {A : Type} (c : bool) (m1 m2 : M A) (s : t) :
  (if c then m1 else m2) s = if c then m1 s else m2 s.
Proof. destruct c; reflexivity. Qed.

Lemma bind_Ret {A B : Type} (m : M A) (k : A -> M B) (s s' : t) (a : A) :
  m s = Ret a s' -> bind m k s = k a s'.
Proof. intros H. unfold bind. rewrite H. reflexivity. Qed.

Lemma bind_Raise {A B : Type} (m : M A) (k : A -> M B) (s s' : t) (e : exn) :
  m s = Raise e s' -> bind m k s = Raise e s'.
Proof. intros H. unfold bind. rewrite H. reflexivity. Qed.

Lemma ret_apply {A : Type} (a : A) (s : t) : ret a s = Ret a s.
Proof. reflexivity. Qed.

Lemma raise_apply {A : Type} (e : exn) (s : t) : @raise A e s = Raise e s.
Proof. reflexivity. Qed.

Lemma bind_show_pieces {B : Type} (rc : Z * Z) (k : pyval -> M B) (s : t) :
  bind (show_pieces rc) k s =
  match Board.return_stack (board s) rc with
  | Ok v => k v s
  | Err e => Raise e s
  end.
Proof.
  unfold show_pieces. rewrite bind_bind, bind_gets.
  destruct (Board.return_stack (board s) rc); reflexivity.
Qed.

Lemma bind_players_getitem {B : Type} (p : string) (k : pref -> M B) (s : t) :
  bind (players_getitem p) k s =
  match players s !! p with
  | Some r => k r s
  | None => Raise KeyError s
  end.
Proof.
  unfold bind, players_getitem. destruct (players s !! p); reflexivity.
Qed.

Lemma bind_py_len {B : Type} (v : pyval) (k : Z -> M B) (s : t) :
  bind (py_len v) k s =
  match v with
  | PyList l => k (Z.of_nat (length l)) s
  | PyStr x => k (Z.of_nat (String.length x)) s
  | _ => Raise TypeError s
  end.
Proof. destruct v; reflexivity. Qed.

Lemma bind_py_getitem {B : Type} (v : pyval) (i : Z) (k : string -> M B)
    (s : t) :
  bind (py_getitem v i) k s =
  match v with
  | PyList l =>
      match py_index l i with
      | Some j =>
          match l !! j with
          | Some x => k x s
          | None => Raise IndexError s
          end
      | None => Raise IndexError s
      end
  | _ => Raise TypeError s
  end.
Proof.
  destruct v; try reflexivity. simpl.
  destruct (py_index l i); [| reflexivity].
  destruct (l !! n); reflexivity.
Qed.

Create Rewrite HintDb py.
#[local] Hint Rewrite @bind_bind @bind_ret @bind_raise @bind_gets @bind_modify
  @bind_if @if_apply
  @bind_show_pieces @bind_players_getitem @bind_py_len @bind_py_getitem
  @ret_apply @raise_apply : py.

Ltac py_case H :=
  match type of H with
  | (if ?c then _ else _) = _ => destruct c eqn:?
  | (match ?c with _ => _ end) = _ => destruct c eqn:?
  | (if ?c then _ else _) _ = _ => destruct c eqn:?
  | (match ?c with _ => _ end) _ = _ => destruct c eqn:?
  end; try discriminate.

Ltac py_step H := autorewrite with py in H; py_case H.

Lemma py_index_top_inv {A : Type} (l : list A) (j : nat) (x : A) :
  py_index l (-1) = Some j -> l !! j = Some x -> last l = Some x.
Proof.
  intros Hj Hx.
  assert (l <> []) by (intros ->; discriminate).
  rewrite py_index_top in Hj by assumption. injection Hj as <-.
  rewrite last_lookup. rewrite <- Hx. f_equal. lia.
Qed.

Lemma return_stack_cases (b : Board.t) (rc : Z * Z) :
  (exists e, Board.return_stack b rc = Err e) \/
  Board.return_stack b rc = Ok (PyBool false) \/
  (exists F, Board.return_stack b rc = Ok (PyList F)).
Proof.
  unfold Board.return_stack.
  repeat match goal with
         | |- context [if ?c then _ else _] => destruct c
         | |- context [match ?c with _ => _ end] => destruct c
         end; eauto.
Qed.

Lemma validation_inv p f d n s s' :
  basic_move_validation p f d n s = Ret true s' ->
  s' = s /\ on_board f /\ on_board d /\
  game_state s = "IN PROGRESS"%string /\
  p = current_player_turn s /\
  exists F r,
    Board.return_stack (board s) f = Ok (PyList F) /\
    players s !! p = Some r /\
    last F = Some (Player.get_color (deref r s)) /\
    0 <= n <= Z.of_nat (length F) /\
    geometry f d n.
Proof.
  unfold basic_move_validation. intros H.
  destruct (existsb _ _) eqn:Hc in H; [discriminate |].
  simpl in Hc. rewrite !orb_false_iff, !negb_false_iff in Hc.
  destruct Hc as (Hf1 & Hf2 & Hd1 & Hd2 & _).
  py_step H. py_step H.
  destruct (return_stack_cases (board s) f) as [[e Hrs] | [Hrs | [F Hrs]]].
  1-2: repeat (autorewrite with py in H; rewrite ?Hrs in H; try py_case H).
  py_step H; [autorewrite with py in H; rewrite Hrs in H; py_step H |].
  all: autorewrite with py in H; rewrite Hrs in H; py_step H.
  all: rewrite Hrs in H; py_step H; py_step H; py_step H; py_step H.
  all: py_step H; autorewrite with py in H; rewrite ?Hrs in H;
    autorewrite with py in H; try discriminate.
  all: py_case H; py_case H; py_case H; injection H as <-.
  all: split; [reflexivity |].
  all: split; [apply on_board_in_0_to_5; auto |].
  all: split; [apply on_board_in_0_to_5; auto |].
  all: split; [apply dec_stable; assumption |].
  all: split; [apply dec_stable; assumption |].
  all: exists F; eexists; split; [exact Hrs |]; split; [reflexivity |].
  all: split; [match goal with
               | Hn : ~ ?a <> Player.get_color _ |- _ =>
                   rewrite <- (dec_stable Hn)
               end; eapply py_index_top_inv; eassumption |].
  all: split; [match goal with
               | H1 : (?m <? 0) = false, H2 : (_ <? ?m) = false |- _ =>
                   apply Z.ltb_ge in H1, H2; lia
               end |].
  all: match goal with
       | Hg : negb (Z.abs _ =? _) && _ = false |- _ =>
           apply andb_false_iff in Hg;
           rewrite !negb_false_iff, !Z.eqb_eq in Hg; exact Hg
       end.
Qed.


(** A request that passes the tests before the geometry test is accepted
    or rejected by that test alone. *)
Lemma validation_run p f d n s F r :
  on_board f -> on_board d ->
  game_state s = "IN PROGRESS"%string ->
  p = current_player_turn s ->
  Board.return_stack (board s) f = Ok (PyList F) ->
  players s !! p = Some r ->
  last F = Some (Player.get_color (deref r s)) ->
  0 <= n <= Z.of_nat (length F) ->
  basic_move_validation p f d n s = Ret (geometryb f d n) s.
Proof.
  intros Hf Hd Hgs Hp Hrs Hr Hlast Hn.
  apply on_board_in_0_to_5 in Hf, Hd. destruct Hf as [Hf1 Hf2], Hd as [Hd1 Hd2].
  assert (HF : F <> []) by (intros ->; discriminate).
  assert (HlenF : (0 < length F)%nat) by (destruct F; [done | simpl; lia]).
  unfold basic_move_validation. cbn [existsb].
  rewrite Hf1, Hf2, Hd1, Hd2. simpl.
  autorewrite with py.
  destruct (decide (game_state s <> "IN PROGRESS"%string)); [congruence |].
  autorewrite with py.
  destruct (decide (p <> current_player_turn s)); [congruence |].
  assert (E0 : (Z.of_nat (length F) =? 0) = false) by (apply Z.eqb_neq; lia).
  destruct (n =? 1); autorewrite with py; rewrite Hrs; autorewrite with py;
    rewrite ?E0; autorewrite with py; rewrite ?Hrs; autorewrite with py;
    rewrite ?E0; autorewrite with py; rewrite ?Hrs.
  all: autorewrite with py.
  all: rewrite py_index_top by assumption.
  all: rewrite last_lookup in Hlast.
  all: replace (length F - 1)%nat with (Nat.pred (length F)) by lia.
  all: rewrite Hlast; autorewrite with py; rewrite Hr; autorewrite with py.
  all: destruct (decide _) as [Hne | _]; [congruence |].
  all: replace (n <? 0) with false by (symmetry; apply Z.ltb_ge; lia).
  all: autorewrite with py; rewrite Hrs; autorewrite with py.
  all: replace (Z.of_nat (length F) <? n) with false
         by (symmetry; apply Z.ltb_ge; lia).
  all: unfold geometryb; rewrite (Z.eqb_refl d.2).
  all: destruct (Z.abs (d.1 - f.1) =? n), (Z.abs (d.2 - f.2) =? n);
    cbn [negb andb orb]; rewrite ?andb_false_r; reflexivity.
Qed.

Lemma geometryb_spec (f d : Z * Z) (n : Z) :
  geometryb f d n = true <-> geometry f d n.
Proof.
  unfold geometryb, geometry. rewrite orb_true_iff, !Z.eqb_eq. tauto.
Qed.

(** ** What a method body leaves alone *)

Lemma keeps_ret {A : Type} (R : t -> t -> Prop) `{!Reflexive R} (a : A) :
  keeps R (ret a).
Proof. intros s. simpl. reflexivity. Qed.

Lemma keeps_raise {A : Type} (R : t -> t -> Prop) `{!Reflexive R} (e : exn) :
  keeps R (@raise A e).
Proof. intros s. simpl. reflexivity. Qed.

Lemma keeps_gets {A : Type} (R : t -> t -> Prop) `{!Reflexive R}
    (f : t -> A) :
  keeps R (gets f).
Proof. intros s. simpl. reflexivity. Qed.

Lemma keeps_lift {A : Type} (R : t -> t -> Prop) `{!Reflexive R}
    (r : res A) :
  keeps R (lift r).
Proof. intros s. destruct r; simpl; reflexivity. Qed.

Lemma keeps_modify (R : t -> t -> Prop) (f : t -> t) :
  (forall s, R s (f s)) -> keeps R (modify f).
Proof. intros H s. simpl. apply H. Qed.

Lemma keeps_bind {A B : Type} (R : t -> t -> Prop) `{!Transitive R}
    (m : M A) (k : A -> M B) :
  keeps R m -> (forall a, keeps R (k a)) -> keeps R (bind m k).
Proof.
  intros Hm Hk s. unfold bind. specialize (Hm s).
  destruct (m s) as [a s1 | e s1]; simpl in *.
  - transitivity s1; [exact Hm | apply Hk].
  - exact Hm.
Qed.

Lemma keeps_weaken {A : Type} (R R' : t -> t -> Prop) (m : M A) :
  (forall s s', R s s' -> R' s s') -> keeps R m -> keeps R' m.
Proof. intros H Hm s. apply H, Hm. Qed.

Lemma keeps_Ret {A : Type} (R : t -> t -> Prop) (m : M A) (s s' : t) (a : A) :
  keeps R m -> m s = Ret a s' -> R s s'.
Proof. intros H E. specialize (H s). rewrite E in H. exact H. Qed.

Lemma keeps_Raise {A : Type} (R : t -> t -> Prop) (m : M A) (s s' : t)
    (e : exn) :
  keeps R m -> m s = Raise e s' -> R s s'.
Proof. intros H E. specialize (H s). rewrite E in H. exact H. Qed.

#[local] Instance same_seats_refl : Reflexive same_seats.
Proof. intros s. unfold same_seats. tauto. Qed.

#[local] Instance same_seats_trans : Transitive same_seats.
Proof.
  intros s1 s2 s3 H12 H23. unfold same_seats in *.
  destruct H12 as (? & ? & ? & ? & ? & ? & ?).
  destruct H23 as (? & ? & ? & ? & ? & ? & ?).
  repeat split; congruence.
Qed.

Ltac keeps_step :=
  match goal with
  | |- keeps _ (bind _ _) => apply keeps_bind; [try apply _ | | intros ?]
  | |- keeps _ (ret _) => apply keeps_ret; apply _
  | |- keeps _ (raise _) => apply keeps_raise; apply _
  | |- keeps _ (gets _) => apply keeps_gets; apply _
  | |- keeps _ (lift _) => apply keeps_lift; apply _
  | |- keeps _ (if ?c then _ else _) => destruct c
  | |- keeps _ (match ?c with _ => _ end) => destruct c
  | |- keeps _ _ => assumption
  end.

Lemma show_pieces_reads (rc : Z * Z) : keeps eq (show_pieces rc).
Proof. unfold show_pieces. repeat keeps_step. Qed.

Lemma players_getitem_reads (p : string) : keeps eq (players_getitem p).
Proof.
  intros s. unfold players_getitem. destruct (players s !! p); reflexivity.
Qed.

Lemma py_len_reads (v : pyval) : keeps eq (py_len v).
Proof. unfold py_len. repeat keeps_step. Qed.

Lemma py_getitem_reads (v : pyval) (i : Z) : keeps eq (py_getitem v i).
Proof. unfold py_getitem. repeat keeps_step. Qed.

Lemma determine_game_state_reads : keeps eq determine_game_state.
Proof. unfold determine_game_state. repeat keeps_step. Qed.

Lemma basic_move_validation_reads p f d n :
  keeps eq (basic_move_validation p f d n).
Proof.
  pose proof show_pieces_reads. pose proof players_getitem_reads.
  pose proof py_len_reads. pose proof py_getitem_reads.
  unfold basic_move_validation. repeat keeps_step; auto.
Qed.

Lemma eq_same_seats (s s' : t) : s = s' -> same_seats s s'.
Proof. intros ->. reflexivity. Qed.

Lemma same_seats_set_board (b : Board.t) (s : t) :
  same_seats s (set_board b s).
Proof. unfold same_seats. simpl. tauto. Qed.

Lemma same_seats_update (r : pref) (f : Player.t -> Player.t) (s : t) :
  (forall p, Player.get_name (f p) = Player.get_name p) ->
  (forall p, Player.get_color (f p) = Player.get_color p) ->
  same_seats s (update r f s).
Proof.
  intros Hn Hc. unfold same_seats. destruct r; simpl; rewrite ?Hn, ?Hc; tauto.
Qed.

Lemma same_seats_credit (r : pref) (l : list string) (s : t) :
  same_seats s (credit r l s).
Proof.
  revert s. induction l as [| x l IH]; intros s; simpl; [reflexivity |].
  etransitivity; [| apply IH].
  unfold credit_piece. destruct (decide _); apply same_seats_update; reflexivity.
Qed.

Lemma for_each_keeps (R : t -> t -> Prop) `{!Reflexive R} `{!Transitive R}
    (l : list Z) (body : Z -> M unit) :
  (forall i, keeps R (body i)) -> keeps R (for_each l body).
Proof.
  intros Hb. induction l as [| i l IH]; simpl.
  - apply keeps_ret; assumption.
  - apply keeps_bind; [assumption | apply Hb | intros _; exact IH].
Qed.

Lemma board_modify_tile_seats (rc : Z * Z) (l : list string) :
  keeps same_seats (board_modify_tile rc l).
Proof.
  unfold board_modify_tile. repeat keeps_step.
  apply keeps_modify. intros s. apply same_seats_set_board.
Qed.

Lemma list_extend_seats (rc : Z * Z) (v : pyval) (xs : list string) :
  keeps same_seats (list_extend rc v xs).
Proof.
  pose proof board_modify_tile_seats.
  unfold list_extend. repeat keeps_step; auto.
Qed.

Lemma reads_seats {A : Type} (m : M A) : keeps eq m -> keeps same_seats m.
Proof. apply keeps_weaken. apply eq_same_seats. Qed.

Lemma resolve_stacks_seats (l : list string) (p : string) :
  keeps same_seats (resolve_stacks l p).
Proof.
  unfold resolve_stacks.
  apply keeps_bind; [apply _ | apply reads_seats, players_getitem_reads |].
  intros r. apply keeps_bind; [apply _ | | intros _; apply keeps_ret; apply _].
  apply for_each_keeps; try apply _. intros i.
  apply keeps_bind; [apply _ | apply reads_seats, py_getitem_reads |].
  intros x. repeat keeps_step; apply keeps_modify; intros s;
    apply same_seats_update; reflexivity.
Qed.

Lemma single_move_seats p f d : keeps same_seats (single_move p f d).
Proof.
  pose proof board_modify_tile_seats. pose proof list_extend_seats.
  pose proof resolve_stacks_seats.
  pose proof (fun rc => reads_seats _ (show_pieces_reads rc)).
  pose proof (fun p => reads_seats _ (players_getitem_reads p)).
  pose proof (fun v => reads_seats _ (py_len_reads v)).
  unfold single_move, list_append, py_getslice. repeat keeps_step; auto.
Qed.

Lemma multiple_move_seats p f d n : keeps same_seats (multiple_move p f d n).
Proof.
  pose proof board_modify_tile_seats. pose proof list_extend_seats.
  pose proof resolve_stacks_seats.
  pose proof (fun rc => reads_seats _ (show_pieces_reads rc)).
  pose proof (fun v => reads_seats _ (py_len_reads v)).
  unfold multiple_move, py_getslice, py_getslice_from.
  repeat keeps_step; auto.
Qed.

(** ** The end of a turn *)

Lemma move_piece_unfold p f d n :
  move_piece p f d n =
  (let* valid := basic_move_validation p f d n in
   if negb valid then ret (PyBool false) else
   let* result :=
     (if n =? 1
      then call single_move p f d ;; ret "successfully moved"%string
      else call multiple_move p f d n ;; ret "successfully moved"%string) in
   end_of_turn (PyStr result)).
Proof. reflexivity. Qed.

Lemma end_of_turn_run (ok : pyval) (s : t) :
  end_of_turn ok s = Ret (report ok (finish s)) (finish s).
Proof.
  unfold end_of_turn, report, finish, next_turn, status_of, win_state,
    determine_game_state.
  autorewrite with py.
  destruct (decide (current_player_turn s = Player.get_name (player1 s)));
    autorewrite with py; simpl;
    destruct (6 <=? Player.get_captured (player1 s)); autorewrite with py;
    simpl; try reflexivity;
    destruct (6 <=? Player.get_captured (player2 s)); autorewrite with py;
    simpl; reflexivity.
Qed.

Lemma report_not_False (x : string) (s : t) :
  report (PyStr x) s <> PyBool false.
Proof. unfold report. destruct (decide _); discriminate. Qed.

Lemma finish_turn (s : t) :
  current_player_turn (finish s) =
  if decide (current_player_turn s = Player.get_name (player1 s))
  then Player.get_name (player2 s) else Player.get_name (player1 s).
Proof. unfold finish, next_turn. destruct (decide _); reflexivity. Qed.

Lemma finish_status (s : t) : game_state (finish s) = status_of (finish s).
Proof.
  unfold finish, next_turn, status_of. destruct (decide _); reflexivity.
Qed.

Lemma determine_game_state_run (s : t) :
  determine_game_state s = Ret (status_of s) s.
Proof.
  unfold determine_game_state, status_of. rewrite !bind_gets.
  destruct (6 <=? Player.get_captured (player1 s)); [reflexivity |].
  destruct (6 <=? Player.get_captured (player2 s)); reflexivity.
Qed.

Lemma finish_players (s : t) :
  player1 (finish s) = player1 s /\ player2 (finish s) = player2 s /\
  board (finish s) = board s /\ players (finish s) = players s.
Proof. unfold finish, next_turn. destruct (decide _); simpl; tauto. Qed.

(** ** Running the moves on a full board *)

Lemma bind_inv {A B : Type} (m : M A) (k : A -> M B) (s s' : t) (b : B) :
  bind m k s = Ret b s' ->
  exists a s1, m s = Ret a s1 /\ k a s1 = Ret b s'.
Proof.
  unfold bind. destruct (m s) as [a s1 | e s1]; [eauto | discriminate].
Qed.

Lemma show_pieces_run (s : t) (rc : Z * Z) :
  six_by_six (board s) -> on_board rc ->
  show_pieces rc s = Ret (PyList (tile (board s) rc)) s.
Proof.
  intros Hb Hrc. unfold show_pieces. rewrite bind_gets.
  rewrite return_stack_on_board by assumption. reflexivity.
Qed.

Lemma board_modify_tile_run (s : t) (rc : Z * Z) (l : list string) :
  six_by_six (board s) -> on_board rc ->
  board_modify_tile rc l s = Ret tt (set_board (set_tile (board s) rc l) s).
Proof.
  intros Hb Hrc. unfold board_modify_tile. rewrite bind_gets.
  rewrite modify_tile_on_board by assumption. reflexivity.
Qed.

Lemma list_extend_run (s : t) (rc : Z * Z) (l xs : list string) :
  six_by_six (board s) -> on_board rc ->
  list_extend rc (PyList l) xs s =
  Ret (l ++ xs) (set_board (set_tile (board s) rc (l ++ xs)) s).
Proof.
  intros Hb Hrc. unfold list_extend.
  erewrite bind_Ret by (apply board_modify_tile_run; assumption).
  reflexivity.
Qed.

Lemma for_each_app (l1 l2 : list Z) (body : Z -> M unit) (s : t) :
  for_each (l1 ++ l2) body s =
  bind (for_each l1 body) (fun _ => for_each l2 body) s.
Proof.
  revert s. induction l1 as [| i l1 IH]; intros s; simpl; [reflexivity |].
  rewrite bind_bind. unfold bind.
  destruct (body i s) as [[] s1 | e s1]; [exact (IH s1) | reflexivity].
Qed.

Lemma board_credit (r : pref) (l : list string) (s : t) :
  board (credit r l s) = board s.
Proof.
  revert s. induction l as [| x l IH]; intros s; simpl; [reflexivity |].
  rewrite IH. unfold credit_piece. destruct (decide _), r; reflexivity.
Qed.

Lemma credit_set_board (r : pref) (l : list string) (b : Board.t) (s : t) :
  credit r l (set_board b s) = set_board b (credit r l s).
Proof.
  revert s. induction l as [| x l IH]; intros s; simpl; [reflexivity |].
  rewrite <- IH. f_equal.
  unfold credit_piece. destruct r; simpl; destruct (decide _); reflexivity.
Qed.

Lemma players_credit (r : pref) (l : list string) (s : t) :
  players (credit r l s) = players s.
Proof. apply (same_seats_credit r l s). Qed.

Lemma credit_app (r : pref) (l1 l2 : list string) (s : t) :
  credit r (l1 ++ l2) s = credit r l2 (credit r l1 s).
Proof. unfold credit. apply fold_left_app. Qed.

(** The loop of [resolve_stacks] credits the bottom [k] pieces in order. *)
Lemma resolve_loop_run (r : pref) (l : list string) (k : nat) (s : t) :
  (k <= length l)%nat ->
  for_each (seqZ 0 (Z.of_nat k)) (fun i =>
    let* current_piece := py_getitem (PyList l) i in
    let* c := gets (fun s => Player.get_color (deref r s)) in
    if decide (current_piece = c)
    then modify (update r Player.add_to_reserve)
    else modify (update r Player.add_to_captured)) s
  = Ret tt (credit r (take k l) s).
Proof.
  induction k as [| k IH]; intros Hk.
  - reflexivity.
  - rewrite seqZ_S, for_each_app.
    erewrite bind_Ret by (apply IH; lia).
    destruct (lookup_lt_is_Some_2 l k) as [x Hx]; [lia |].
    rewrite (take_S_r _ _ _ Hx), credit_app.
    simpl for_each. autorewrite with py.
    rewrite py_index_in_range by lia.
    replace (Z.to_nat (0 + Z.of_nat k)) with k by lia.
    rewrite Hx. autorewrite with py.
    simpl credit. unfold credit_piece.
    destruct (decide _); reflexivity.
Qed.

Lemma resolve_stacks_run (l : list string) (p : string) (r : pref) (s : t) :
  players s !! p = Some r -> (5 < length l)%nat ->
  resolve_stacks l p s = Ret (top5 l) (credit r (overflow l) s).
Proof.
  intros Hr Hl. unfold resolve_stacks.
  rewrite bind_players_getitem, Hr.
  replace (Z.of_nat (length l) - 5) with (Z.of_nat (length l - 5)) by lia.
  erewrite bind_Ret by (apply resolve_loop_run; lia).
  rewrite py_slice_from_drop by lia. rewrite Nat2Z.id. reflexivity.
Qed.

Lemma resolve_if_needed_run (l : list string) (p : string) (r : pref)
    (s : t) :
  players s !! p = Some r ->
  (if 5 <? Z.of_nat (length l) then resolve_stacks l p else ret l) s =
  Ret (top5 l) (credit r (overflow l) s).
Proof.
  intros Hr. destruct (5 <? Z.of_nat (length l)) eqn:E.
  - apply Z.ltb_lt in E. apply resolve_stacks_run; [assumption | lia].
  - apply Z.ltb_ge in E. unfold top5, overflow.
    replace (length l - 5)%nat with 0%nat by lia. reflexivity.
Qed.

Lemma place_finish (r : pref) (f d : Z * Z) (old new : list string) (s : t) :
  set_board
    (set_tile (set_tile (set_tile (board s) d new) f old) d (top5 new))
    (credit r (overflow new) s) = place r f d old new s.
Proof. unfold place. rewrite set_tile_overwrite. reflexivity. Qed.

Lemma single_move_run (p : string) (r : pref) (f d : Z * Z) (s : t) :
  six_by_six (board s) -> players s !! p = Some r ->
  on_board f -> on_board d ->
  single_move p f d s =
  Ret tt (place r f d
            (py_slice (tile (board s) f) 0
               (Z.of_nat (length (tile (board s) f)) - 1))
            (tile (board s) d ++ [Player.get_color (deref r s)]) s).
Proof.
  intros Hb Hr Hf Hd. unfold single_move, list_append.
  rewrite bind_players_getitem, Hr.
  erewrite bind_Ret by (apply show_pieces_run; assumption).
  autorewrite with py. unfold py_getslice. autorewrite with py.
  rewrite return_stack_on_board by assumption.
  autorewrite with py.
  erewrite bind_Ret by (apply list_extend_run; assumption).
  erewrite bind_Ret by (apply resolve_if_needed_run; exact Hr).
  rewrite credit_set_board.
  erewrite bind_Ret
    by (apply board_modify_tile_run;
        [apply six_by_six_set_tile; assumption | assumption]).
  rewrite board_modify_tile_run
    by (try assumption; repeat apply six_by_six_set_tile; assumption).
  simpl board. f_equal. apply place_finish.
Qed.

Lemma multiple_move_run (p : string) (r : pref) (f d : Z * Z) (n : Z)
    (s : t) :
  six_by_six (board s) -> players s !! p = Some r ->
  on_board f -> on_board d ->
  multiple_move p f d n s =
  Ret tt (place r f d
            (py_slice (tile (board s) f) 0
               (Z.of_nat (length (tile (board s) f)) - n))
            (tile (board s) d ++ py_slice_from (tile (board s) f) (- n)) s).
Proof.
  intros Hb Hr Hf Hd. unfold multiple_move.
  erewrite bind_Ret by (apply show_pieces_run; assumption).
  erewrite bind_Ret by (apply show_pieces_run; assumption).
  autorewrite with py. unfold py_getslice, py_getslice_from.
  autorewrite with py.
  rewrite return_stack_on_board by assumption.
  autorewrite with py.
  erewrite bind_Ret by (apply list_extend_run; assumption).
  erewrite bind_Ret by (apply resolve_if_needed_run; exact Hr).
  rewrite credit_set_board.
  erewrite bind_Ret
    by (apply board_modify_tile_run;
        [apply six_by_six_set_tile; assumption | assumption]).
  rewrite board_modify_tile_run
    by (try assumption; repeat apply six_by_six_set_tile; assumption).
  simpl board. f_equal. apply place_finish.
Qed.

Lemma move_piece_run (p : string) (f d : Z * Z) (n : Z) (s s0 : t) :
  six_by_six (board s) ->
  basic_move_validation p f d n s = Ret true s0 ->
  exists r,
    players s !! p = Some r /\
    move_piece p f d n s =
    Ret (report (PyStr "successfully moved") (move_result r f d n s))
      (move_result r f d n s).
Proof.
  intros Hb Hv.
  destruct (validation_inv _ _ _ _ _ _ Hv)
    as (-> & Hf & Hd & _ & _ & F & r & _ & Hr & _).
  exists r. split; [exact Hr |].
  rewrite move_piece_unfold.
  erewrite bind_Ret by exact Hv. cbn [negb].
  unfold move_result.
  destruct (n =? 1) eqn:En; cbv iota.
  - apply Z.eqb_eq in En. subst n.
    rewrite bind_bind.
    erewrite bind_Ret by (apply single_move_run; eassumption).
    rewrite bind_ret. apply end_of_turn_run.
  - rewrite bind_bind.
    erewrite bind_Ret by (apply multiple_move_run; eassumption).
    rewrite bind_ret. apply end_of_turn_run.
Qed.

Lemma set_tile_twice (b : Board.t) (d : Z * Z) (x y : list string) :
  set_tile (set_tile b d x) d y = set_tile b d y.
Proof.
  unfold set_tile. simpl. f_equal.
  generalize (Z.to_nat d.1) (Z.to_nat d.2). intros r c. revert r.
  induction (Board.board_layout b) as [| row l IH]; intros [| r]; simpl;
    try reflexivity; f_equal; [apply insert_twice | apply IH].
Qed.

Lemma reserved_move_unfold p d :
  reserved_move p d =
  (let* player := players_getitem p in
   let* to_stack := show_pieces d in
   let* r := gets (fun s => Player.get_reserve (deref player s)) in
   if r =? 0 then ret (PyBool false) else
   let* cur := gets current_player_turn in
   if decide (p <> cur) then ret (PyBool false) else
   if existsb (fun coords => negb (in_0_to_5 coords)) [d.1; d.2]
   then ret (PyBool false) else
   call modify (update player Player.play_from_reserve) ;;
   let* c := gets (fun s => Player.get_color (deref player s)) in
   let* new_stack := list_append d to_stack c in
   let* new_stack :=
     (if 5 <? Z.of_nat (length new_stack)
      then resolve_stacks new_stack p
      else ret new_stack) in
   call board_modify_tile d new_stack ;;
   end_of_turn (PyBool true)).
Proof. reflexivity. Qed.

Lemma deref_color_update (r : pref) (f : Player.t -> Player.t) (s : t) :
  (forall p, Player.get_color (f p) = Player.get_color p) ->
  Player.get_color (deref r (update r f s)) = Player.get_color (deref r s).
Proof. intros H. destruct r; simpl; apply H. Qed.

Lemma reserved_move_run (p : string) (r : pref) (d : Z * Z) (s : t) :
  six_by_six (board s) -> players s !! p = Some r ->
  Player.get_reserve (deref r s) <> 0 ->
  p = current_player_turn s -> on_board d ->
  reserved_move p d s =
  Ret (report (PyBool true) (reserve_result r d s)) (reserve_result r d s).
Proof.
  intros Hb Hr Hres Hp Hd.
  rewrite reserved_move_unfold.
  rewrite bind_players_getitem, Hr.
  erewrite bind_Ret by (apply show_pieces_run; assumption).
  rewrite bind_gets.
  replace (Player.get_reserve (deref r s) =? 0) with false
    by (symmetry; apply Z.eqb_neq; assumption).
  rewrite bind_gets.
  destruct (decide (p <> current_player_turn s)) as [Hne | _]; [congruence |].
  apply on_board_in_0_to_5 in Hd as Hd'. destruct Hd' as [Hd1 Hd2].
  cbn [existsb]. rewrite Hd1, Hd2. cbn [negb orb].
  rewrite bind_modify, bind_gets.
  rewrite deref_color_update by reflexivity.
  unfold list_append.
  assert (Hb1 : board (update r Player.play_from_reserve s) = board s)
    by (destruct r; reflexivity).
  assert (Hr1 : players (update r Player.play_from_reserve s) !! p = Some r)
    by (destruct r; exact Hr).
  erewrite bind_Ret by (apply list_extend_run; rewrite ?Hb1; assumption).
  rewrite Hb1.
  erewrite bind_Ret by (apply resolve_if_needed_run; exact Hr1).
  rewrite credit_set_board.
  erewrite bind_Ret
    by (apply board_modify_tile_run;
        [apply six_by_six_set_tile; assumption | assumption]).
  simpl board. rewrite set_tile_twice.
  rewrite end_of_turn_run. unfold reserve_result.
  replace (set_board _ (set_board _ _)) with
    (set_board
       (set_tile (board s) d
          (top5 (tile (board s) d ++ [Player.get_color (deref r s)])))
       (credit r
          (overflow (tile (board s) d ++ [Player.get_color (deref r s)]))
          (update r Player.play_from_reserve s))) by reflexivity.
  reflexivity.
Qed.

(** ** Every call either leaves the state alone or makes a move *)

Lemma move_piece_cases (p : string) (f d : Z * Z) (n : Z) (s : t) :
  six_by_six (board s) ->
  (exists e, move_piece p f d n s = Raise e s) \/
  move_piece p f d n s = Ret (PyBool false) s \/
  exists r, players s !! p = Some r /\
            basic_move_validation p f d n s = Ret true s /\
            move_piece p f d n s =
            Ret (report (PyStr "successfully moved") (move_result r f d n s))
              (move_result r f d n s).
Proof.
  intros Hb.
  destruct (basic_move_validation p f d n s) as [[|] s1 | e s1] eqn:Hv.
  all: assert (s1 = s)
         by (symmetry;
             first [eapply keeps_Ret;
                    [apply basic_move_validation_reads | exact Hv]
                   | eapply keeps_Raise;
                    [apply basic_move_validation_reads | exact Hv]]).
  all: subst s1.
  - right. right.
    destruct (move_piece_run _ _ _ _ _ _ Hb Hv) as (r & Hr & Hrun).
    exists r. auto.
  - right. left. rewrite move_piece_unfold. erewrite bind_Ret by exact Hv.
    reflexivity.
  - left. exists e. rewrite move_piece_unfold. erewrite bind_Raise by exact Hv.
    reflexivity.
Qed.

Lemma reserved_move_cases (p : string) (d : Z * Z) (s : t) :
  six_by_six (board s) ->
  (exists e, reserved_move p d s = Raise e s) \/
  reserved_move p d s = Ret (PyBool false) s \/
  exists r, players s !! p = Some r /\
            Player.get_reserve (deref r s) <> 0 /\
            p = current_player_turn s /\ on_board d /\
            reserved_move p d s =
            Ret (report (PyBool true) (reserve_result r d s))
              (reserve_result r d s).
Proof.
  intros Hb.
  destruct (players s !! p) as [r |] eqn:Hr.
  2: { left. exists KeyError.
       rewrite reserved_move_unfold, bind_players_getitem, Hr. reflexivity. }
  destruct (decide (Player.get_reserve (deref r s) <> 0
                    /\ p = current_player_turn s /\ on_board d))
    as [(Hz & Hp & Hd) | Hno].
  { right. right. exists r. repeat (split; [first [reflexivity | assumption] |]).
    apply reserved_move_run; assumption. }
  rewrite reserved_move_unfold, bind_players_getitem, Hr, bind_show_pieces.
  destruct (Board.return_stack (board s) d) as [v | e]; [| left; eauto].
  right. left. rewrite bind_gets.
  destruct (Player.get_reserve (deref r s) =? 0) eqn:Hz; [reflexivity |].
  apply Z.eqb_neq in Hz. rewrite bind_gets.
  destruct (decide (p <> current_player_turn s)) as [| Hp]; [reflexivity |].
  apply dec_stable in Hp.
  destruct (existsb _ _) eqn:Hd; [reflexivity |].
  exfalso. apply Hno. repeat (split; [assumption |]).
  apply on_board_in_0_to_5. cbn [existsb] in Hd.
  rewrite !orb_false_iff, !negb_false_iff in Hd. tauto.
Qed.

(** ** The invariant *)

Lemma length_py_slice {A : Type} (l : list A) (lo hi : Z) :
  (length (py_slice l lo hi) <= length l)%nat.
Proof. unfold py_slice. rewrite length_take, length_drop. lia. Qed.

Lemma same_seats_place r f d old new s : same_seats s (place r f d old new s).
Proof.
  unfold place. etransitivity; [apply same_seats_credit |].
  apply same_seats_set_board.
Qed.

Lemma board_place r f d old new s :
  board (place r f d old new s) =
  set_tile (set_tile (board s) f old) d (top5 new).
Proof. reflexivity. Qed.

Lemma wf_finish (s x : t) :
  wf s -> same_seats s x -> six_by_six (board x) -> wf (finish x).
Proof.
  intros (_ & Hp & _) (_ & _ & Hpl & Hn1 & Hn2 & _ & _) Hb.
  destruct (finish_players x) as (E1 & E2 & E3 & E4).
  unfold wf. rewrite finish_turn, E1, E2, E3, E4.
  split; [exact Hb |]. split.
  - rewrite Hpl, Hn1, Hn2. exact Hp.
  - destruct (decide _); auto.
Qed.

Lemma inv_finish (s x : t) :
  wf s -> same_seats s x -> six_by_six (board x) ->
  all_tiles (fun st => (length st <= 5)%nat) (board x) ->
  inv (finish x).
Proof.
  intros Hwf Hs Hb Hall. split; [eapply wf_finish; eassumption |].
  destruct (finish_players x) as (_ & _ & -> & _). exact Hall.
Qed.

Lemma inv_move_result r f d n s : inv s -> inv (move_result r f d n s).
Proof.
  intros [Hwf Hall]. unfold move_result.
  apply (inv_finish s); [exact Hwf | apply same_seats_place | |];
    rewrite board_place.
  - repeat apply six_by_six_set_tile. apply Hwf.
  - repeat apply all_tiles_set_tile; [exact Hall | | apply length_top5_le].
    etransitivity; [apply length_py_slice |].
    apply (all_tiles_tile _ _ _ Hall). simpl. lia.
Qed.

Lemma inv_reserve_result r d s : inv s -> inv (reserve_result r d s).
Proof.
  intros [Hwf Hall]. unfold reserve_result.
  apply (inv_finish s); [exact Hwf | | |].
  - transitivity (update r Player.play_from_reserve s);
      [apply same_seats_update; reflexivity |].
    etransitivity; [apply same_seats_credit |]. apply same_seats_set_board.
  - simpl board. apply six_by_six_set_tile. apply Hwf.
  - simpl board. apply all_tiles_set_tile; [exact Hall | apply length_top5_le].
Qed.

Lemma inv_perform (s : t) (c : api_call) : inv s -> inv (perform s c).
Proof.
  intros Hinv. destruct c as [p f d n | p d]; simpl.
  - destruct (move_piece_cases p f d n s (proj1 (proj1 Hinv)))
      as [[e ->] | [-> | (r & _ & _ & ->)]];
      [exact Hinv | exact Hinv | apply inv_move_result, Hinv].
  - destruct (reserved_move_cases p d s (proj1 (proj1 Hinv)))
      as [[e ->] | [-> | (r & _ & _ & _ & _ & ->)]];
      [exact Hinv | exact Hinv | apply inv_reserve_result, Hinv].
Qed.

Lemma inv_init (player1 player2 : string * string) :
  inv (init player1 player2).
Proof.
  split; [split; [| split] |].
  - split; [reflexivity |]. repeat constructor.
  - reflexivity.
  - left. reflexivity.
  - unfold all_tiles. repeat constructor.
Qed.

Lemma inv_play (calls : list api_call) (s : t) : inv s -> inv (play calls s).
Proof.
  revert s. induction calls as [| c calls IH]; intros s Hs; simpl.
  - exact Hs.
  - apply IH, inv_perform, Hs.
Qed.


Lemma show_pieces_Ret (rc : Z * Z) (s s' : t) (v : pyval) :
  show_pieces rc s = Ret v s' -> Board.return_stack (board s) rc = Ok v.
Proof.
  unfold show_pieces. rewrite bind_gets.
  destruct (Board.return_stack (board s) rc); cbv [lift ret raise];
    intros H; [injection H as -> _; reflexivity | discriminate].
Qed.

(** ** Counting pieces *)

Lemma sum_alter {A : Type} (w : A -> Z) (g : A -> A) (l : list A) (i : nat)
    (y : A) :
  l !! i = Some y ->
  foldr Z.add 0 (map w (alter g i l)) =
  foldr Z.add 0 (map w l) - w y + w (g y).
Proof.
  revert i. induction l as [| z l IH]; intros [| i] H; try discriminate.
  - injection H as ->. simpl. lia.
  - change (alter g (S i) (z :: l)) with (z :: alter g i l).
    cbn [map foldr]. rewrite (IH i H). lia.
Qed.

Lemma sum_insert {A : Type} (w : A -> Z) (l : list A) (i : nat) (x y : A) :
  l !! i = Some y ->
  foldr Z.add 0 (map w (<[i := x]> l)) = foldr Z.add 0 (map w l) - w y + w x.
Proof.
  revert i. induction l as [| z l IH]; intros [| i] H; try discriminate.
  - injection H as ->. simpl. lia.
  - change (<[S i := x]> (z :: l)) with (z :: <[i := x]> l).
    cbn [map foldr]. rewrite (IH i H). lia.
Qed.

Lemma pieces_on_board_set_tile (b : Board.t) (rc : Z * Z) (l : list string) :
  six_by_six b -> on_board rc ->
  pieces_on_board (set_tile b rc l) =
  pieces_on_board b - Z.of_nat (length (tile b rc)) + Z.of_nat (length l).
Proof.
  intros Hb Hrc.
  destruct (six_by_six_row b rc Hb Hrc) as (row & Hrow & _ & Hst).
  unfold pieces_on_board, set_tile. simpl.
  rewrite (sum_alter _ _ _ _ _ Hrow).
  rewrite (sum_insert _ _ _ _ _ Hst). lia.
Qed.

Lemma pieces_in_hand_credit (r : pref) (l : list string) (s : t) :
  pieces_in_hand (credit r l s) = pieces_in_hand s + Z.of_nat (length l).
Proof.
  revert s. induction l as [| x l IH]; intros s.
  - simpl. lia.
  - change (credit r (x :: l) s) with (credit r l (credit_piece r s x)).
    rewrite IH. unfold credit_piece, pieces_in_hand.
    destruct (decide _), r; simpl;
      unfold Player.get_reserve, Player.get_captured; simpl; lia.
Qed.

Lemma total_pieces_finish (s : t) : total_pieces (finish s) = total_pieces s.
Proof.
  destruct (finish_players s) as (E1 & E2 & E3 & _).
  unfold total_pieces. rewrite E1, E2, E3. reflexivity.
Qed.

Lemma total_pieces_split (s : t) :
  total_pieces s = pieces_on_board (board s) + pieces_in_hand s.
Proof. unfold total_pieces, pieces_in_hand. lia. Qed.

Lemma length_overflow_top5 (l : list string) :
  Z.of_nat (length (overflow l)) + Z.of_nat (length (top5 l))
  = Z.of_nat (length l).
Proof. rewrite <- (overflow_top5 l) at 3. rewrite length_app. lia. Qed.

(** Every accepted call that asks for at least one piece keeps the number
    of pieces, also when the destination stack overflows: what leaves the
    stack goes to the caller's reserve or captures. *)
Lemma total_pieces_kept (c : api_call) (s s' : t) (v : pyval) :
  six_by_six (board s) ->
  invoke c s = Ret v s' -> v <> PyBool false ->
  at_least_one_piece c ->
  total_pieces s' = total_pieces s.
Proof.
  intros Hb H Hv Hn. destruct c as [p f d n | p d]; simpl in *.
  - destruct (move_piece_cases p f d n s Hb)
      as [[e He] | [He | (r & Hr & Hval & He)]];
      rewrite He in H; [discriminate | congruence |].
    injection H as _ <-.
    destruct (validation_inv _ _ _ _ _ _ Hval)
      as (_ & Hf & Hd & _ & _ & F & r' & HF & _ & _ & HnF & Hg).
    rewrite return_stack_on_board in HF by assumption.
    injection HF as HF.
    assert (Hfd : f <> d).
    { intros ->. unfold geometry in Hg. rewrite !Z.sub_diag in Hg.
      simpl in Hg. lia. }
    unfold move_result. rewrite total_pieces_finish, total_pieces_split.
    rewrite board_place. unfold place.
    replace (pieces_in_hand (set_board _ _))
      with (pieces_in_hand
              (credit r
                 (overflow
                    (tile (board s) d ++
                       (if n =? 1 then [Player.get_color (deref r s)]
                        else py_slice_from (tile (board s) f) (- n))))
                 s)) by reflexivity.
    rewrite pieces_in_hand_credit.
    rewrite !pieces_on_board_set_tile
      by (try apply six_by_six_set_tile; assumption).
    rewrite tile_set_tile_other by assumption.
    rewrite total_pieces_split.
    set (new := tile (board s) d ++ _).
    pose proof (length_overflow_top5 new) as Hsplit.
    assert (Hnew : Z.of_nat (length new)
                   = Z.of_nat (length (tile (board s) d)) + n).
    { unfold new. rewrite length_app. destruct (n =? 1) eqn:E.
      - apply Z.eqb_eq in E. simpl. lia.
      - rewrite py_slice_from_top by (rewrite HF; lia).
        rewrite length_drop, HF. lia. }
    assert (Hold : Z.of_nat (length (py_slice (tile (board s) f) 0
                     (Z.of_nat (length (tile (board s) f)) - n)))
                   = Z.of_nat (length (tile (board s) f)) - n).
    { rewrite py_slice_prefix by (rewrite HF; lia).
      rewrite length_take, HF. lia. }
    lia.
  - destruct (reserved_move_cases p d s Hb)
      as [[e He] | [He | (r & Hr & Hres & _ & Hd & He)]];
      rewrite He in H; [discriminate | congruence |].
    injection H as _ <-.
    unfold reserve_result. rewrite total_pieces_finish, total_pieces_split.
    simpl board.
    replace (pieces_in_hand (set_board _ _))
      with (pieces_in_hand
              (credit r
                 (overflow (tile (board s) d ++ [Player.get_color (deref r s)]))
                 (update r Player.play_from_reserve s))) by reflexivity.
    rewrite pieces_in_hand_credit.
    rewrite pieces_on_board_set_tile by assumption.
    rewrite total_pieces_split.
    pose proof (length_overflow_top5
                  (tile (board s) d ++ [Player.get_color (deref r s)]))
      as Hsplit.
    rewrite length_app in Hsplit. simpl length in Hsplit.
    assert (Hhand : pieces_in_hand (update r Player.play_from_reserve s)
                    = pieces_in_hand s - 1).
    { unfold pieces_in_hand. destruct r; simpl;
        unfold Player.get_reserve, Player.get_captured; simpl; lia. }
    lia.
Qed.

(** ** Calls that return *)

Lemma wf_turn_is_player (s : t) :
  wf s -> is_Some (players s !! current_player_turn s).
Proof.
  intros (_ & Hp & Ht). rewrite Hp.
  destruct Ht as [-> | ->].
  - rewrite lookup_insert. destruct (decide _); [eauto |].
    rewrite lookup_insert_eq. eauto.
  - rewrite lookup_insert_eq. eauto.
Qed.

Lemma validation_never_raises p f d n s e s' :
  wf s -> basic_move_validation p f d n s <> Raise e s'.
Proof.
  intros Hwf H. unfold basic_move_validation in H.
  destruct (existsb _ _) eqn:Hc in H; [discriminate |].
  cbn [existsb] in Hc. rewrite !orb_false_iff, !negb_false_iff in Hc.
  destruct Hc as (Hf1 & Hf2 & _).
  assert (Hf : on_board f) by (apply on_board_in_0_to_5; auto).
  pose proof (return_stack_on_board _ _ (proj1 Hwf) Hf) as Hrs.
  set (F := tile (board s) f) in Hrs.
  py_step H. py_step H.
  match goal with Hp : ~ p <> _ |- _ => pose proof (dec_stable Hp) as Hturn end.
  destruct (wf_turn_is_player s Hwf) as [r Hr]. rewrite <- Hturn in Hr.
  py_step H; [autorewrite with py in H; rewrite Hrs in H; py_step H |].
  all: autorewrite with py in H; rewrite Hrs in H; py_step H.
  all: assert (HF : F <> [])
         by (intros E;
             match goal with
             | Hz : (Z.of_nat (length _) =? 0) = false |- _ =>
                 rewrite E in Hz; discriminate
             end).
  all: rewrite Hrs in H; autorewrite with py in H;
    rewrite (py_index_top F HF) in H.
  all: destruct (lookup_lt_is_Some_2 F (length F - 1)) as [x Hx];
    [destruct F; [done | simpl; lia] |].
  all: rewrite Hx in H; autorewrite with py in H; rewrite Hr in H.
  all: py_step H; py_step H; autorewrite with py in H; rewrite ?Hrs in H;
    autorewrite with py in H; try discriminate.
  all: repeat py_case H.
Qed.

Lemma validation_returns p f d n s :
  wf s -> exists b, basic_move_validation p f d n s = Ret b s.
Proof.
  intros Hwf.
  destruct (basic_move_validation p f d n s) as [b s1 | e s1] eqn:Hv.
  - exists b. f_equal. symmetry.
    eapply keeps_Ret; [apply basic_move_validation_reads | exact Hv].
  - exfalso. exact (validation_never_raises _ _ _ _ _ _ _ Hwf Hv).
Qed.

(** X19. On a game reached by calls of the engine, for every name, every
    pair of integer coordinates and every integer number of pieces,
    [move_piece], [show_pieces], [show_reserve] and [show_captured] return
    a value and do not raise. (Coordinates that are not integers are
    outside this statement, as they are outside the model.) *)
Lemma other_operations_return (calls : list api_call)
    (player1 player2 : string * string) (p : string) (f d : Z * Z) (n : Z) :
  let s := play calls (init player1 player2) in
  (exists v s', move_piece p f d n s = Ret v s') /\
  (exists v, show_pieces d s = Ret v s) /\
  (exists v, show_reserve p s = Ret v s) /\
  (exists v, show_captured p s = Ret v s).
Proof.
  intros s.
  destruct (inv_play calls (init player1 player2) (inv_init player1 player2))
    as [Hwf _]. fold s in Hwf.
  split; [| split; [| split]].
  - destruct (validation_returns p f d n s Hwf) as [[|] Hb].
    + destruct (move_piece_run _ _ _ _ _ _ (proj1 Hwf) Hb) as (r & _ & Hrun).
      eauto.
    + rewrite move_piece_unfold. erewrite bind_Ret by exact Hb. eauto.
  - unfold show_pieces. rewrite bind_gets.
    destruct (decide (on_board d)) as [Hd | Hd].
    + rewrite return_stack_on_board by (assumption || apply Hwf). eauto.
    + rewrite return_stack_off_board by assumption. eauto.
  - unfold show_reserve. rewrite bind_gets.
    destruct (decide _); [eauto |]. rewrite bind_gets.
    destruct (decide _); eauto.
  - unfold show_captured. rewrite bind_gets.
    destruct (decide _); [eauto |]. rewrite bind_gets.
    destruct (decide _); eauto.
Qed.

(** * The claims *)

(** C9. A new game with colours A and B has one piece on every tile:
    [show_pieces((r, c))] is [[A]] when [r + c // 2] is even and [[B]]
    otherwise, so the colours come in pairs along a row, change every two
    columns and are flipped on odd rows; in particular (0,0) holds [A],
    (0,2) holds [B], (1,0) holds [B] and (1,2) holds [A]. *)
Theorem initial_layout (n1 A n2 B : string) (r c : Z) :
  on_board (r, c) ->
  let g := init (n1, A) (n2, B) in
  show_pieces (r, c) g =
    Ret (PyList [if Z.even (r + c / 2) then A else B]) g /\
  show_pieces (0, 0) g = Ret (PyList [A]) g /\
  show_pieces (0, 2) g = Ret (PyList [B]) g /\
  show_pieces (1, 0) g = Ret (PyList [B]) g /\
  show_pieces (1, 2) g = Ret (PyList [A]) g.
Proof.
  intros [Hr Hc]. simpl in Hr, Hc.
  split; [| repeat split; reflexivity].
  assert (Er : r = 0 \/ r = 1 \/ r = 2 \/ r = 3 \/ r = 4 \/ r = 5) by lia.
  assert (Ec : c = 0 \/ c = 1 \/ c = 2 \/ c = 3 \/ c = 4 \/ c = 5) by lia.
  destruct Er as [-> | [-> | [-> | [-> | [-> | ->]]]]];
    destruct Ec as [-> | [-> | [-> | [-> | [-> | ->]]]]]; reflexivity.
Qed.

Lemma initial_layout_witness :
  on_board (3, 5) /\
  show_pieces (3, 5) (init ("A", "R") ("B", "G"))%string =
    Ret (PyList ["G"%string]) (init ("A", "R") ("B", "G"))%string.
Proof.
  split; [unfold on_board; simpl; lia |].
  apply (initial_layout "A" "R" "B" "G" 3 5). unfold on_board; simpl; lia.
Defined.

(** C7. For a request that passes the tests made before it, the geometry
    test passes exactly when |to.row - from.row| or |to.col - from.col|
    equals number_of_pieces: the request is accepted if one of the two
    does, whatever the other one is, and rejected if neither does. *)
Theorem geometry_check_is_one_delta (p : string) (f d : Z * Z) (n : Z)
    (s : t) (F : list string) (r : pref) :
  on_board f -> on_board d ->
  game_state s = "IN PROGRESS"%string ->
  p = current_player_turn s ->
  show_pieces f s = Ret (PyList F) s ->
  players s !! p = Some r ->
  last F = Some (Player.get_color (deref r s)) ->
  0 <= n <= Z.of_nat (length F) ->
  (geometry f d n -> basic_move_validation p f d n s = Ret true s) /\
  (~ geometry f d n -> basic_move_validation p f d n s = Ret false s).
Proof.
  intros Hf Hd Hgs Hp Hsp Hr Hlast Hn.
  apply show_pieces_Ret in Hsp.
  rewrite (validation_run p f d n s F r) by assumption.
  split; intros Hg.
  - apply geometryb_spec in Hg. rewrite Hg. reflexivity.
  - destruct (geometryb f d n) eqn:E; [| reflexivity].
    apply geometryb_spec in E. contradiction.
Qed.

(** A diagonal request: one square down and one to the right with one
    piece. *)
Lemma geometry_check_is_one_delta_witness :
  geometry (0, 0) (1, 1) 1 /\
  (0, 0).1 <> (1, 1).1 /\ (0, 0).2 <> (1, 1).2 /\
  basic_move_validation "A" (0, 0) (1, 1) 1 new_game = Ret true new_game.
Proof.
  split; [left; reflexivity |]. split; [discriminate |].
  split; [discriminate |].
  refine (proj1 (geometry_check_is_one_delta "A" (0, 0) (1, 1) 1 new_game
                   ["R"%string] P1 _ _ _ _ _ _ _ _) _).
  - unfold on_board; simpl; lia.
  - unfold on_board; simpl; lia.
  - reflexivity.
  - reflexivity.
  - reflexivity.
  - reflexivity.
  - reflexivity.
  - simpl; lia.
  - left; reflexivity.
Defined.

(** C6. A call to [move_piece] that returns [False] leaves the state as it
    was: it is the validation that rejected the request, whichever test
    failed, and nothing has been written. *)
Theorem move_piece_rejection_changes_nothing (p : string) (f d : Z * Z)
    (n : Z) (s s' : t) :
  move_piece p f d n s = Ret (PyBool false) s' ->
  s' = s /\ basic_move_validation p f d n s = Ret false s.
Proof.
  intros H. rewrite move_piece_unfold in H.
  apply bind_inv in H as (valid & s1 & Hv & H).
  assert (s1 = s)
    by (symmetry; eapply keeps_Ret;
        [apply basic_move_validation_reads | exact Hv]).
  subst s1. destruct valid; cbn [negb] in H.
  - apply bind_inv in H as (result & s2 & _ & H).
    rewrite end_of_turn_run in H. injection H as H _.
    exfalso. exact (report_not_False _ _ H).
  - injection H as <-. split; [reflexivity | exact Hv].
Qed.

(** X18. Each test of the validation rejects on its own: on a game between
    two calls, a request that fails any of them gets [False] and the state
    is the one before the call. *)
Lemma failed_test_rejects (p : string) (f d : Z * Z) (n : Z) (s : t) :
  wf s ->
  ~ on_board f \/ ~ on_board d \/
  game_state s <> "IN PROGRESS"%string \/
  p <> current_player_turn s \/
  tile (board s) f = [] \/
  (exists r, players s !! p = Some r /\
             last (tile (board s) f) <> Some (Player.get_color (deref r s))) \/
  n < 0 \/ Z.of_nat (length (tile (board s) f)) < n \/
  ~ geometry f d n ->
  move_piece p f d n s = Ret (PyBool false) s.
Proof.
  intros Hwf Hfail.
  destruct (validation_returns p f d n s Hwf) as [[|] Hb].
  - exfalso.
    destruct (validation_inv _ _ _ _ _ _ Hb)
      as (_ & Hf & Hd & Hgs & Hp & F & r & HF & Hr & Hlast & Hn & Hg).
    rewrite return_stack_on_board in HF by (assumption || apply Hwf).
    injection HF as <-.
    destruct Hfail as [H | [H | [H | [H | [H | [H | [H | [H | H]]]]]]]];
      try contradiction; try lia.
    + rewrite H in Hlast. discriminate.
    + destruct H as (r' & Hr' & H). rewrite Hr in Hr'.
      injection Hr' as <-. contradiction.
  - rewrite move_piece_unfold. erewrite bind_Ret by exact Hb. reflexivity.
Qed.

(** Player B asks to move while it is A's turn. *)
Lemma move_piece_rejection_changes_nothing_witness :
  move_piece "B" (1, 0) (1, 1) 1 new_game = Ret (PyBool false) new_game /\
  new_game = new_game.
Proof.
  assert (H : move_piece "B" (1, 0) (1, 1) 1 new_game
              = Ret (PyBool false) new_game) by reflexivity.
  split; [exact H |].
  exact (proj1 (move_piece_rejection_changes_nothing _ _ _ _ _ _ H)).
Defined.

Lemma turn_passed_finish (p : string) (s x : t) (ok : pyval) :
  same_seats s x -> p = current_player_turn s ->
  turn_passed p s (finish x) (report ok (finish x)).
Proof.
  intros (Ht & _ & _ & Hn1 & Hn2 & _ & _) Hp.
  assert (Hturn : current_player_turn (finish x) =
                  if decide (p = Player.get_name (player1 s))
                  then Player.get_name (player2 s)
                  else Player.get_name (player1 s)).
  { rewrite finish_turn, Ht, Hn1, Hn2, <- Hp. reflexivity. }
  unfold turn_passed. split; [exact Hturn |]. split; [| split].
  - intros Hne. rewrite Hturn. destruct (decide _); congruence.
  - rewrite determine_game_state_run, <- finish_status. reflexivity.
  - intros Hw. unfold report.
    destruct (decide (win_state _)); [reflexivity | contradiction].
Qed.

(** C5. A call to [move_piece] or [reserved_move] that does not return
    [False] hands the turn to the other name, then sets the status from the
    captures; when that status is a win, the value returned is
    "<name> wins" for the new turn holder, not for the caller. *)
Theorem turn_passes_then_status (c : api_call) (s s' : t) (v : pyval) :
  invoke c s = Ret v s' -> v <> PyBool false ->
  turn_passed (caller c) s s' v.
Proof.
  intros H Hv. destruct c as [p f d n | p d]; simpl in *.
  - rewrite move_piece_unfold in H.
    apply bind_inv in H as (valid & s1 & Hval & H).
    destruct valid; cbn [negb] in H; [| injection H as <- _; congruence].
    destruct (validation_inv _ _ _ _ _ _ Hval) as (-> & _ & _ & _ & Hp & _).
    apply bind_inv in H as (result & s2 & Hmove & H).
    rewrite end_of_turn_run in H. injection H as <- <-.
    apply turn_passed_finish; [| exact Hp].
    destruct (n =? 1).
    + apply bind_inv in Hmove as ([] & s3 & Hm & Hret).
      injection Hret as _ <-.
      exact (keeps_Ret _ _ _ _ _ (single_move_seats p f d) Hm).
    + apply bind_inv in Hmove as ([] & s3 & Hm & Hret).
      injection Hret as _ <-.
      exact (keeps_Ret _ _ _ _ _ (multiple_move_seats p f d n) Hm).
  - rewrite reserved_move_unfold in H.
    rewrite bind_players_getitem in H.
    destruct (players s !! p) as [r |]; [| discriminate].
    rewrite bind_show_pieces in H.
    destruct (Board.return_stack (board s) d) as [to_stack |];
      [| discriminate].
    rewrite bind_gets in H.
    destruct (Player.get_reserve (deref r s) =? 0);
      [injection H as <- _; congruence |].
    rewrite bind_gets in H.
    destruct (decide (p <> current_player_turn s)) as [| Hp];
      [injection H as <- _; congruence |].
    apply dec_stable in Hp.
    destruct (existsb _ _); [injection H as <- _; congruence |].
    rewrite bind_modify, bind_gets in H.
    apply bind_inv in H as (new_stack & s1 & Happ & H).
    apply bind_inv in H as (new_stack' & s2 & Hres & H).
    apply bind_inv in H as ([] & s3 & Hmod & H).
    rewrite end_of_turn_run in H. injection H as <- <-.
    apply turn_passed_finish; [| exact Hp].
    transitivity (update r Player.play_from_reserve s);
      [apply same_seats_update; reflexivity |].
    transitivity s1;
      [exact (keeps_Ret _ _ _ _ _ (list_extend_seats _ _ _) Happ) |].
    transitivity s2;
      [| exact (keeps_Ret _ _ _ _ _ (board_modify_tile_seats _ _) Hmod)].
    destruct (5 <? _).
    + exact (keeps_Ret _ _ _ _ _ (resolve_stacks_seats _ _) Hres).
    + injection Hres as _ <-. reflexivity.
Qed.

(** Player A's sixth capture: the call returns "B wins". Player B's reserve
    play that follows: the call returns "A wins". *)
Lemma turn_passes_then_status_witness :
  let s := play (take 18 winning_game) new_game in
  let c := MovePiece "A" (3, 4) (3, 5) 1 in
  let q := ReservedMove "B" (0, 0) in
  let s2 := perform game_won q in
  invoke c s = Ret (PyStr "B wins") game_won /\
  game_state game_won = "PLAYER 1 WINS"%string /\
  turn_passed "A" s game_won (PyStr "B wins") /\
  invoke q game_won = Ret (PyStr "A wins") s2 /\
  current_player_turn game_won = "B"%string /\
  current_player_turn s2 = "A"%string /\
  turn_passed "B" game_won s2 (PyStr "A wins").
Proof.
  intros s c q s2.
  assert (H : invoke c s = Ret (PyStr "B wins") game_won)
    by (vm_compute; reflexivity).
  assert (Hq : invoke q game_won = Ret (PyStr "A wins") s2)
    by (vm_compute; reflexivity).
  split; [exact H |]. split; [vm_compute; reflexivity |].
  split; [apply (turn_passes_then_status c s game_won _ H); discriminate |].
  split; [exact Hq |].
  split; [vm_compute; reflexivity |]. split; [vm_compute; reflexivity |].
  apply (turn_passes_then_status q game_won s2 _ Hq). discriminate.
Defined.

(** ** Crediting the overflow *)

Lemma credit_piece_color (r : pref) (s : t) (x : string) :
  Player.get_color (deref r (credit_piece r s x)) =
  Player.get_color (deref r s).
Proof. unfold credit_piece. destruct (decide _), r; reflexivity. Qed.

Lemma credit_counts (r : pref) (l : list string) (s : t) :
  let mine := Player.get_color (deref r s) in
  Player.get_reserve (deref r (credit r l s)) =
    Player.get_reserve (deref r s) + count_color mine l /\
  Player.get_captured (deref r (credit r l s)) =
    Player.get_captured (deref r s) + count_other mine l.
Proof.
  revert s. induction l as [| x l IH]; intros s mine; simpl.
  - unfold count_color, count_other. simpl. lia.
  - destruct (IH (credit_piece r s x)) as [IH1 IH2].
    rewrite credit_piece_color in IH1, IH2. fold mine in IH1, IH2.
    change (fold_left (credit_piece r) l (credit_piece r s x))
      with (credit r l (credit_piece r s x)).
    rewrite IH1, IH2. unfold count_color, count_other.
    rewrite !filter_cons. unfold credit_piece. fold mine.
    destruct (decide (x = mine)) as [E | E].
    + destruct (decide (x <> mine)); [contradiction |].
      destruct r; simpl; unfold Player.get_reserve, Player.get_captured;
        lia.
    + destruct (decide (x <> mine)); [| contradiction].
      destruct r; simpl; unfold Player.get_reserve, Player.get_captured;
        lia.
Qed.

(** C4. When the stack on the destination tile is more than five high
    after a move or a reserve play, [resolve_stacks] goes through its
    bottom [k = size - 5] pieces from the bottom up, adds one to the
    caller's reserve for each piece of the caller's colour and one to the
    caller's captures for each other piece, and the tile is left with the
    top five pieces in their order. *)
Theorem overflow_resolution (c : api_call) (s s' : t) (v : pyval) (r : pref) :
  six_by_six (board s) ->
  players s !! caller c = Some r ->
  invoke c s = Ret v s' -> v <> PyBool false ->
  let new := landing r c s in
  let k := (length new - 5)%nat in
  let mine := Player.get_color (deref r s) in
  (5 < length new)%nat ->
  (forall x, players x !! caller c = Some r ->
     resolve_stacks new (caller c) x =
     Ret (drop k new) (fold_left (credit_piece r) (take k new) x)) /\
  tile (board s') (destination c) = drop k new /\
  length (tile (board s') (destination c)) = 5%nat /\
  player1 s' = player1 (fold_left (credit_piece r) (take k new) (spend r c s)) /\
  player2 s' = player2 (fold_left (credit_piece r) (take k new) (spend r c s)) /\
  Player.get_reserve (deref r s') =
    Player.get_reserve (deref r s) - reserve_spent c
    + count_color mine (take k new) /\
  Player.get_captured (deref r s') =
    Player.get_captured (deref r s) + count_other mine (take k new).
Proof.
  intros Hb Hr H Hv new k mine Hlen.
  split.
  { intros x Hx. apply (resolve_stacks_run new (caller c) r x Hx Hlen). }
  assert (Hs' : on_board (destination c) /\
                s' = finish (set_board
                               (set_tile (board s') (destination c) (top5 new))
                               (credit r (overflow new) (spend r c s))) /\
                tile (board s') (destination c) = top5 new).
  { destruct c as [p f d n | p d]; simpl in *.
    - destruct (move_piece_cases p f d n s Hb)
        as [[e He] | [He | (r' & Hr' & Hval & He)]];
        rewrite He in H; [discriminate | congruence |].
      injection H as _ <-.
      assert (r' = r) by congruence. subst r'.
      destruct (validation_inv _ _ _ _ _ _ Hval) as (_ & _ & Hd & _).
      split; [exact Hd |].
      unfold move_result. fold new.
      destruct (finish_players
                  (place r f d
                     (py_slice (tile (board s) f) 0
                        (Z.of_nat (length (tile (board s) f)) - n)) new s))
        as (_ & _ & Hbd & _).
      rewrite Hbd, board_place.
      rewrite tile_set_tile_same
        by (try apply six_by_six_set_tile; assumption).
      split; [| reflexivity].
      rewrite set_tile_twice. reflexivity.
    - destruct (reserved_move_cases p d s Hb)
        as [[e He] | [He | (r' & Hr' & _ & _ & Hd & He)]];
        rewrite He in H; [discriminate | congruence |].
      injection H as _ <-.
      assert (r' = r) by congruence. subst r'.
      split; [exact Hd |].
      unfold reserve_result. fold new.
      destruct (finish_players
                  (set_board (set_tile (board s) d (top5 new))
                     (credit r (overflow new)
                        (update r Player.play_from_reserve s))))
        as (_ & _ & Hbd & _).
      rewrite Hbd. simpl board.
      rewrite tile_set_tile_same by assumption.
      split; [| reflexivity].
      rewrite set_tile_twice. reflexivity. }
  destruct Hs' as (Hd & Hs' & Htile).
  split; [exact Htile |].
  split; [rewrite Htile; apply length_top5; exact Hlen |].
  set (x := set_board (set_tile (board s') (destination c) (top5 new))
              (credit r (overflow new) (spend r c s))) in Hs'.
  destruct (finish_players x) as (Hp1 & Hp2 & _ & _).
  rewrite <- Hs' in Hp1, Hp2.
  split; [exact Hp1 |]. split; [exact Hp2 |].
  assert (Hderef : deref r s' = deref r (credit r (overflow new) (spend r c s)))
    by (destruct r; simpl; [exact Hp1 | exact Hp2]).
  rewrite Hderef.
  destruct (credit_counts r (overflow new) (spend r c s)) as [Hres Hcap].
  assert (Hcol : Player.get_color (deref r (spend r c s)) = mine)
    by (destruct c, r; reflexivity).
  rewrite Hcol in Hres, Hcap. rewrite Hres, Hcap.
  change (overflow new) with (take k new).
  destruct c, r; simpl; unfold Player.get_reserve, Player.get_captured;
    simpl; split; lia.
Qed.

(** Player A moves the two pieces of (1,5) onto the five of (3,5): the two
    bottom pieces are B's and go to A's captures. Player B then plays its
    reserve piece onto the same tile: the bottom piece is B's own and goes
    back to B's reserve. *)
Lemma overflow_resolution_witness :
  let s := play (take 10 winning_game) new_game in
  let c := MovePiece "A" (1, 5) (3, 5) 2 in
  let s' := perform s c in
  let q := ReservedMove "B" (3, 5) in
  let s'' := perform s' q in
  (landing P1 c s = ["G"; "G"; "G"; "G"; "G"; "G"; "R"]%string /\
   tile (board s') (destination c) =
     drop (length (landing P1 c s) - 5) (landing P1 c s) /\
   tile (board s') (3, 5) = ["G"; "G"; "G"; "G"; "R"]%string /\
   Player.get_captured (player1 s) = 0 /\
   Player.get_captured (player1 s') = 2) /\
  (invoke q s' = Ret (PyBool true) s'' /\
   landing P2 q s' = ["G"; "G"; "G"; "G"; "R"; "G"]%string /\
   tile (board s'') (destination q) =
     drop (length (landing P2 q s') - 5) (landing P2 q s') /\
   Player.get_reserve (deref P2 s'') =
     Player.get_reserve (deref P2 s') - reserve_spent q
     + count_color (Player.get_color (deref P2 s'))
         (take (length (landing P2 q s') - 5) (landing P2 q s')) /\
   tile (board s'') (3, 5) = ["G"; "G"; "G"; "R"; "G"]%string /\
   Player.get_reserve (player2 s') = 1 /\
   Player.get_reserve (player2 s'') = 1 /\
   Player.get_captured (player2 s'') = 0).
Proof.
  intros s c s' q s''.
  split.
  - assert (Hb : six_by_six (board s))
      by (split; [vm_compute; reflexivity | vm_compute; repeat constructor]).
    assert (Hr : players s !! caller c = Some P1) by (vm_compute; reflexivity).
    assert (H : invoke c s = Ret (PyStr "successfully moved") s')
      by (vm_compute; reflexivity).
    assert (Hv : PyStr "successfully moved" <> PyBool false) by discriminate.
    assert (Hlen : (5 < length (landing P1 c s))%nat) by (vm_compute; lia).
    split; [vm_compute; reflexivity |].
    split; [exact (proj1 (proj2 (overflow_resolution c s s' _ P1 Hb Hr H Hv
                                   Hlen))) |].
    vm_compute. repeat split; reflexivity.
  - assert (Hb : six_by_six (board s'))
      by (split; [vm_compute; reflexivity | vm_compute; repeat constructor]).
    assert (Hr : players s' !! caller q = Some P2) by (vm_compute; reflexivity).
    assert (H : invoke q s' = Ret (PyBool true) s'')
      by (vm_compute; reflexivity).
    assert (Hv : PyBool true <> PyBool false) by discriminate.
    assert (Hlen : (5 < length (landing P2 q s'))%nat) by (vm_compute; lia).
    destruct (overflow_resolution q s' s'' _ P2 Hb Hr H Hv Hlen)
      as (_ & Ht & _ & _ & _ & Hres & _).
    split; [exact H |].
    split; [vm_compute; reflexivity |].
    split; [exact Ht |]. split; [exact Hres |].
    vm_compute. repeat split; reflexivity.
Defined.


(** ** Where the code departs from the specification *)

(** X20. Once the status is not "IN PROGRESS", [move_piece] returns [False]
    and changes nothing, whatever the request. *)
Lemma move_piece_rejected_once_over (p : string) (f d : Z * Z) (n : Z)
    (s : t) :
  game_state s <> "IN PROGRESS"%string ->
  move_piece p f d n s = Ret (PyBool false) s.
Proof.
  intros Hgs. rewrite move_piece_unfold.
  assert (Hv : basic_move_validation p f d n s = Ret false s).
  { unfold basic_move_validation.
    destruct (existsb _ _); [reflexivity |].
    rewrite bind_gets.
    destruct (decide (game_state s <> "IN PROGRESS"%string));
      [reflexivity | contradiction]. }
  erewrite bind_Ret by exact Hv. reflexivity.
Qed.

(** An accepted request asks for at most as many pieces as the source stack
    has, and not for a negative number. *)
Lemma accepted_piece_count (p : string) (f d : Z * Z) (n : Z) (s s' : t)
    (v : pyval) :
  move_piece p f d n s = Ret v s' -> v <> PyBool false ->
  exists F, show_pieces f s = Ret (PyList F) s /\
            0 <= n <= Z.of_nat (length F).
Proof.
  intros H Hv. rewrite move_piece_unfold in H.
  apply bind_inv in H as (valid & s1 & Hval & H).
  destruct valid; cbn [negb] in H; [| injection H as <- _; congruence].
  destruct (validation_inv _ _ _ _ _ _ Hval)
    as (_ & _ & _ & _ & _ & F & r & HF & _ & _ & Hn & _).
  exists F. split; [| exact Hn].
  unfold show_pieces. rewrite bind_gets, HF. reflexivity.
Qed.

(** Every call of the sample game is accepted, and the last one reports
    the win. *)
Example winning_game_replies :
  replies winning_game new_game =
  replicate 18 (Some (PyStr "successfully moved")) ++ [Some (PyStr "B wins")].
Proof. vm_compute. reflexivity. Qed.

(** C1 fails for [reserved_move]: in the won game it is B's turn and B has
    a piece in reserve; the reserve play is accepted, puts a piece on the
    empty tile (0,0), takes it from B's reserve and hands the turn to A. *)
Example reserved_move_accepted_after_win :
  let s' := state_of (reserved_move "B" (0, 0) game_won) in
  game_state game_won = "PLAYER 1 WINS"%string /\
  current_player_turn game_won = "B"%string /\
  Player.get_reserve (player2 game_won) = 1 /\
  tile (board game_won) (0, 0) = [] /\
  reserved_move "B" (0, 0) game_won = Ret (PyStr "A wins") s' /\
  tile (board s') (0, 0) = ["G"%string] /\
  Player.get_reserve (player2 s') = 0 /\
  current_player_turn s' = "A"%string.
Proof. vm_compute. repeat split; reflexivity. Qed.

(** C2 fails for number_of_pieces = 0: the test is
    [number_of_pieces < 0], so a request for no piece along a row or a
    column is accepted; [multiple_move] then takes [stack[-0:]], the whole
    source stack, puts a copy of it on the destination and leaves the
    source as it was. *)
Example zero_pieces_accepted :
  let s' := state_of (move_piece "A" (0, 0) (0, 1) 0 new_game) in
  basic_move_validation "A" (0, 0) (0, 1) 0 new_game = Ret true new_game /\
  move_piece "A" (0, 0) (0, 1) 0 new_game
    = Ret (PyStr "successfully moved") s' /\
  tile (board s') (0, 0) = ["R"%string] /\
  tile (board s') (0, 1) = ["R"; "R"]%string /\
  current_player_turn s' = "B"%string.
Proof. vm_compute. repeat split; reflexivity. Qed.

(** C3 fails on the same call: it is accepted, no stack is more than five
    high, and there are 37 pieces afterwards. *)
Example zero_pieces_add_a_piece :
  let s' := state_of (move_piece "A" (0, 0) (0, 1) 0 new_game) in
  total_pieces new_game = 36 /\
  move_piece "A" (0, 0) (0, 1) 0 new_game
    = Ret (PyStr "successfully moved") s' /\
  length (landing P1 (MovePiece "A" (0, 0) (0, 1) 0) new_game) = 2%nat /\
  total_pieces s' = 37.
Proof. vm_compute. repeat split; reflexivity. Qed.

(** C8 fails for [reserved_move]: its first statement looks the name up in
    the dict, so a name that is not a player's raises KeyError. *)
Example reserved_move_unknown_player_raises :
  reserved_move "nobody" (0, 0) new_game = Raise KeyError new_game.
Proof. reflexivity. Qed.

(** * Further properties of the code *)

(** ** Board.py *)

Lemma py_index_negative {A : Type} (l : list A) (i : Z) :
  - Z.of_nat (length l) <= i < 0 ->
  py_index l i = Some (Z.to_nat (i + Z.of_nat (length l))).
Proof.
  intros H. unfold py_index.
  replace (0 <=? i) with false by (symmetry; apply Z.leb_gt; lia).
  replace (i <? 0) with true by (symmetry; apply Z.ltb_lt; lia).
  replace (0 <=? i + Z.of_nat (length l)) with true
    by (symmetry; apply Z.leb_le; lia).
  reflexivity.
Qed.

Lemma py_index_out_of_range {A : Type} (l : list A) (i : Z) :
  i < - Z.of_nat (length l) \/ Z.of_nat (length l) <= i ->
  py_index l i = None.
Proof.
  intros H. unfold py_index.
  destruct (0 <=? i) eqn:E1; destruct (i <? Z.of_nat (length l)) eqn:E2;
    destruct (i <? 0) eqn:E3;
    destruct (0 <=? i + Z.of_nat (length l)) eqn:E4; simpl; try reflexivity;
    rewrite ?Z.leb_le, ?Z.leb_gt, ?Z.ltb_lt, ?Z.ltb_ge in *; lia.
Qed.

Lemma py_index_mod {A : Type} (l : list A) (i : Z) :
  length l = 6%nat -> -6 <= i <= 5 ->
  py_index l i = Some (Z.to_nat (i mod 6)).
Proof.
  intros Hl Hi. destruct (Z.neg_nonneg_cases i) as [Hneg | Hpos].
  - rewrite py_index_negative by (rewrite Hl; lia). rewrite Hl.
    f_equal. f_equal.
    assert (i mod 6 = i + 6); [| lia].
    symmetry. apply (Z.mod_unique_pos i 6 (-1)); lia.
  - rewrite py_index_in_range by (rewrite Hl; lia).
    rewrite Z.mod_small by lia. reflexivity.
Qed.

(** X1. Writing a tile and reading it back: on a 6 by 6 board,
    [modify_tile] at a coordinate of the board succeeds, keeps the board 6
    by 6, and [return_stack] then gives the new stack at that coordinate
    and what it gave before at every other coordinate of the board. *)
Theorem modify_tile_then_return_stack (b : Board.t) (rc rc' : Z * Z)
    (l : list string) :
  six_by_six b -> on_board rc -> on_board rc' ->
  exists b',
    Board.modify_tile b rc l = Ok b' /\
    six_by_six b' /\
    Board.return_stack b' rc' =
      if decide (rc = rc') then Ok (PyList l) else Board.return_stack b rc'.
Proof.
  intros Hb Hrc Hrc'. exists (set_tile b rc l).
  split; [apply modify_tile_on_board; assumption |].
  split; [apply six_by_six_set_tile; assumption |].
  rewrite return_stack_on_board
    by (try apply six_by_six_set_tile; assumption).
  destruct (decide (rc = rc')) as [<- | Hne].
  - rewrite tile_set_tile_same by assumption. reflexivity.
  - rewrite tile_set_tile_other by assumption.
    rewrite return_stack_on_board by assumption. reflexivity.
Qed.

Lemma modify_tile_then_return_stack_witness :
  exists b',
    Board.modify_tile (Board.init "R" "G") (2, 3) ["G"; "R"]%string = Ok b' /\
    six_by_six b' /\
    Board.return_stack b' (2, 3) = Ok (PyList ["G"; "R"]%string).
Proof.
  assert (Hb : six_by_six (Board.init "R" "G"))
    by (split; [reflexivity | repeat constructor]).
  assert (Hrc : on_board (2, 3)) by (unfold on_board; simpl; lia).
  destruct (modify_tile_then_return_stack (Board.init "R" "G") (2, 3) (2, 3)
              ["G"; "R"]%string Hb Hrc Hrc) as (b' & Hm & Hb' & Hrs).
  exists b'. split; [exact Hm |]. split; [exact Hb' |].
  rewrite Hrs. destruct (decide ((2, 3) = (2, 3))); [reflexivity | done].
Defined.

(** X2. On a 6 by 6 board [return_stack] never raises: it answers [False]
    exactly for the coordinates that are off the board, and a list of
    pieces for every coordinate of the board. *)
Theorem return_stack_sentinel (b : Board.t) (rc : Z * Z) :
  six_by_six b ->
  (Board.return_stack b rc = Ok (PyBool false) <-> ~ on_board rc) /\
  (on_board rc -> exists st, Board.return_stack b rc = Ok (PyList st)).
Proof.
  intros Hb. split; [split |].
  - intros H Hrc. rewrite return_stack_on_board in H by assumption.
    discriminate.
  - apply return_stack_off_board.
  - intros Hrc. rewrite return_stack_on_board by assumption. eauto.
Qed.

Lemma return_stack_sentinel_witness :
  Board.return_stack (Board.init "R" "G") (6, 0) = Ok (PyBool false) /\
  Board.return_stack (Board.init "R" "G") (0, -1) = Ok (PyBool false).
Proof.
  assert (Hb : six_by_six (Board.init "R" "G"))
    by (split; [reflexivity | repeat constructor]).
  split.
  - apply (proj1 (return_stack_sentinel _ (6, 0) Hb)).
    unfold on_board; simpl; lia.
  - apply (proj1 (return_stack_sentinel _ (0, -1) Hb)).
    unfold on_board; simpl; lia.
Defined.

(** X3. [modify_tile] checks no bounds: on a 6 by 6 board, indices from -6
    to 5 are taken as Python takes them, negative ones counting from the
    end, so the tile written is the one at the indices modulo 6, also
    where [return_stack] answers [False]; any index outside -6..5 raises
    IndexError. *)
Theorem modify_tile_unchecked (b : Board.t) (r c : Z) (l : list string) :
  six_by_six b ->
  (-6 <= r <= 5 -> -6 <= c <= 5 ->
   Board.modify_tile b (r, c) l = Ok (set_tile b (r mod 6, c mod 6) l)) /\
  (r < -6 \/ 5 < r \/ c < -6 \/ 5 < c ->
   Board.modify_tile b (r, c) l = Err IndexError).
Proof.
  intros Hb. split.
  - intros Hr Hc.
    assert (Hon : on_board (r mod 6, c mod 6)).
    { unfold on_board. simpl.
      pose proof (Z.mod_pos_bound r 6). pose proof (Z.mod_pos_bound c 6). lia. }
    destruct (six_by_six_row b _ Hb Hon) as (row & Hrow & Hlen & _).
    simpl in Hrow.
    unfold Board.modify_tile, set_tile. simpl.
    rewrite py_index_mod by (apply Hb || assumption). rewrite Hrow.
    rewrite py_index_mod by assumption.
    rewrite (insert_as_alter _ _ row
               (fun row => <[Z.to_nat (c mod 6) := l]> row)) by exact Hrow.
    reflexivity.
  - intros H. unfold Board.modify_tile. simpl.
    destruct (decide (r < -6 \/ 5 < r)) as [Hr | Hr].
    + rewrite py_index_out_of_range by (rewrite (proj1 Hb); lia).
      reflexivity.
    + assert (Hr' : -6 <= r <= 5) by lia.
      rewrite py_index_mod by (apply Hb || assumption).
      assert (Hon : on_board (r mod 6, 0)).
      { unfold on_board. simpl. pose proof (Z.mod_pos_bound r 6). lia. }
      destruct (six_by_six_row b _ Hb Hon) as (row & Hrow & Hlen & _).
      simpl in Hrow. rewrite Hrow.
      rewrite py_index_out_of_range by (rewrite Hlen; lia). reflexivity.
Qed.

Lemma modify_tile_unchecked_witness :
  Board.modify_tile (Board.init "R" "G") (-1, -6) [] =
    Ok (set_tile (Board.init "R" "G") (5, 0) []) /\
  Board.return_stack (Board.init "R" "G") (-1, -6) = Ok (PyBool false) /\
  Board.modify_tile (Board.init "R" "G") (0, 6) [] = Err IndexError.
Proof.
  assert (Hb : six_by_six (Board.init "R" "G"))
    by (split; [reflexivity | repeat constructor]).
  split; [| split].
  - apply (proj1 (modify_tile_unchecked _ (-1) (-6) [] Hb)); lia.
  - reflexivity.
  - apply (proj2 (modify_tile_unchecked _ 0 6 [] Hb)). lia.
Defined.

(** ** FocusGame.py: what a call can do to a game *)

#[local] Instance pref_eq_dec : EqDecision pref.
Proof. solve_decision. Defined.

Lemma report_True_not_False (s : t) : report (PyBool true) s <> PyBool false.
Proof. unfold report. destruct (decide _); discriminate. Qed.

(** A call leaves the state alone or is accepted; an accepted call is made
    by the turn holder, who is in the dict. *)
Lemma perform_cases (s : t) (c : api_call) :
  six_by_six (board s) ->
  perform s c = s \/
  exists r v,
    players s !! caller c = Some r /\
    caller c = current_player_turn s /\
    invoke c s = Ret v (perform s c) /\ v <> PyBool false /\
    perform s c = call_result r c s /\
    match c with
    | MovePiece p f d n => basic_move_validation p f d n s = Ret true s
    | ReservedMove p d => Player.get_reserve (deref r s) <> 0 /\ on_board d
    end.
Proof.
  intros Hb. destruct c as [p f d n | p d]; simpl.
  - destruct (move_piece_cases p f d n s Hb)
      as [[e He] | [He | (r & Hr & Hval & He)]]; rewrite He; simpl; auto.
    right. exists r, (report (PyStr "successfully moved") (move_result r f d n s)).
    destruct (validation_inv _ _ _ _ _ _ Hval) as (_ & _ & _ & _ & Hp & _).
    repeat (split; [first [assumption | reflexivity
                          | apply report_not_False] |]).
    exact Hval.
  - destruct (reserved_move_cases p d s Hb)
      as [[e He] | [He | (r & Hr & Hres & Hp & Hd & He)]]; rewrite He; simpl;
      auto.
    right. exists r, (report (PyBool true) (reserve_result r d s)).
    repeat (split; [first [assumption | reflexivity
                          | apply report_True_not_False] |]).
    assumption.
Qed.

Lemma invoke_perform (c : api_call) (s s' : t) (v : pyval) :
  invoke c s = Ret v s' -> perform s c = s'.
Proof. intros H. destruct c; simpl in *; rewrite H; reflexivity. Qed.

Lemma call_result_players (r : pref) (c : api_call) (s : t) :
  player1 (call_result r c s) =
    player1 (credit r (overflow (landing r c s)) (spend r c s)) /\
  player2 (call_result r c s) =
    player2 (credit r (overflow (landing r c s)) (spend r c s)).
Proof.
  destruct c as [p f d n | p d];
    unfold call_result, move_result, reserve_result;
    match goal with
    | |- context [finish ?x] =>
        destruct (finish_players x) as (E1 & E2 & _ & _); rewrite E1, E2
    end; split; reflexivity.
Qed.

Lemma call_result_deref (r r' : pref) (c : api_call) (s : t) :
  deref r' (call_result r c s) =
  deref r' (credit r (overflow (landing r c s)) (spend r c s)).
Proof.
  destruct (call_result_players r c s) as [H1 H2].
  destruct r'; simpl; assumption.
Qed.

Lemma credit_piece_other (r r' : pref) (s : t) (x : string) :
  r' <> r -> deref r' (credit_piece r s x) = deref r' s.
Proof.
  intros H. unfold credit_piece.
  destruct (decide _), r, r'; try reflexivity; contradiction.
Qed.

Lemma credit_other (r r' : pref) (l : list string) (s : t) :
  r' <> r -> deref r' (credit r l s) = deref r' s.
Proof.
  intros H. revert s. induction l as [| x l IH]; intros s; [reflexivity |].
  change (credit r (x :: l) s) with (credit r l (credit_piece r s x)).
  rewrite IH. apply credit_piece_other. exact H.
Qed.

(** Crediting pieces lowers no counter of either player. *)
Lemma credit_grows (r r' : pref) (l : list string) (s : t) :
  Player.get_reserve (deref r' s)
    <= Player.get_reserve (deref r' (credit r l s)) /\
  Player.get_captured (deref r' s)
    <= Player.get_captured (deref r' (credit r l s)).
Proof.
  destruct (decide (r' = r)) as [-> | Hne].
  - destruct (credit_counts r l s) as [-> ->].
    unfold count_color, count_other. lia.
  - rewrite credit_other by exact Hne. lia.
Qed.

Lemma spend_counters (r r' : pref) (c : api_call) (s : t) :
  Player.get_captured (deref r' (spend r c s)) =
    Player.get_captured (deref r' s) /\
  Player.get_reserve (deref r' (spend r c s)) =
    Player.get_reserve (deref r' s)
    - (if decide (r' = r) then reserve_spent c else 0).
Proof.
  destruct c, r, r'; simpl; unfold Player.get_reserve, Player.get_captured;
    simpl; split; lia.
Qed.

(** An accepted call lowers no capture count. *)
Lemma captured_grows (r r' : pref) (c : api_call) (s : t) :
  Player.get_captured (deref r' s)
    <= Player.get_captured (deref r' (call_result r c s)).
Proof.
  rewrite call_result_deref.
  etransitivity; [| apply credit_grows].
  rewrite (proj1 (spend_counters r r' c s)). lia.
Qed.

Lemma total_pieces_init (player1 player2 : string * string) :
  total_pieces (init player1 player2) = 36.
Proof. reflexivity. Qed.

Lemma total_pieces_perform (s : t) (c : api_call) :
  six_by_six (board s) -> at_least_one_piece c ->
  total_pieces (perform s c) = total_pieces s.
Proof.
  intros Hb Hc.
  destruct (perform_cases s c Hb) as [-> | (r & v & _ & _ & Hv & Hne & _)];
    [reflexivity |].
  exact (total_pieces_kept c s _ v Hb Hv Hne Hc).
Qed.

(** X4. Conservation of pieces: a game has 36 pieces when it is created,
    and after any sequence of calls in which every [move_piece] asks for
    at least one piece, accepted or not, with or without overflow, the
    pieces on the board and the reserves and captures of both players
    still add up to 36. *)
Theorem pieces_are_conserved (player1 player2 : string * string)
    (calls : list api_call) :
  Forall at_least_one_piece calls ->
  total_pieces (play calls (init player1 player2)) = 36.
Proof.
  intros Hcalls.
  rewrite <- (total_pieces_init player1 player2).
  pose proof (inv_init player1 player2) as Hinv.
  revert Hinv. generalize (init player1 player2) as s.
  induction Hcalls as [| c calls Hc _ IH]; intros s Hinv; simpl.
  - reflexivity.
  - rewrite (IH (perform s c)) by (apply inv_perform; exact Hinv).
    apply total_pieces_perform; [apply Hinv | exact Hc].
Qed.

Lemma pieces_are_conserved_witness :
  Forall at_least_one_piece winning_game /\
  Player.get_captured (player1 game_won) = 6 /\
  total_pieces game_won = 36.
Proof.
  assert (H : Forall at_least_one_piece winning_game)
    by (repeat constructor; simpl; lia).
  split; [exact H |]. split; [vm_compute; reflexivity |].
  exact (pieces_are_conserved ("A", "R")%string ("B", "G")%string
           winning_game H).
Defined.

Lemma counters_nonneg_perform (s : t) (c : api_call) :
  six_by_six (board s) -> counters_nonneg s ->
  counters_nonneg (perform s c).
Proof.
  intros Hb Hs.
  destruct (perform_cases s c Hb)
    as [-> | (r & v & _ & _ & _ & _ & -> & Hc)]; [exact Hs |].
  assert (H : forall r',
             0 <= Player.get_reserve (deref r' s) ->
             0 <= Player.get_captured (deref r' s) ->
             0 <= Player.get_reserve (deref r' (call_result r c s)) /\
             0 <= Player.get_captured (deref r' (call_result r c s))).
  { intros r' Hres Hcap. rewrite call_result_deref.
    destruct (credit_grows r r' (overflow (landing r c s)) (spend r c s))
      as [G1 G2].
    destruct (spend_counters r r' c s) as [S1 S2].
    rewrite S1 in G2. rewrite S2 in G1.
    split; [| lia].
    destruct (decide (r' = r)) as [-> | _]; [| lia].
    destruct c as [p f d n | p d]; simpl in *; lia. }
  destruct Hs as (H1 & H2 & H3 & H4).
  destruct (H P1 H1 H3), (H P2 H2 H4).
  repeat split; assumption.
Qed.

(** X5. In every game, after any sequence of calls, the reserve and the
    capture count of both players are at least 0: [play_from_reserve]
    itself subtracts without a test, and [reserved_move] calls it only
    with a reserve that is not 0. *)
Theorem counters_never_negative (player1 player2 : string * string)
    (calls : list api_call) :
  counters_nonneg (play calls (init player1 player2)).
Proof.
  assert (H : forall s, inv s -> counters_nonneg s ->
                        counters_nonneg (play calls s)).
  { induction calls as [| c calls IH]; intros s Hinv Hs; simpl.
    - exact Hs.
    - apply IH; [apply inv_perform; exact Hinv |].
      apply counters_nonneg_perform; [apply Hinv | exact Hs]. }
  apply H; [apply inv_init |].
  unfold counters_nonneg. simpl. lia.
Qed.

Lemma call_result_status (r : pref) (c : api_call) (s : t) :
  game_state (call_result r c s) = status_of (call_result r c s).
Proof. destruct c; apply finish_status. Qed.

Lemma status_perform (s : t) (c : api_call) :
  six_by_six (board s) -> game_state s = status_of s ->
  game_state (perform s c) = status_of (perform s c).
Proof.
  intros Hb Hs.
  destruct (perform_cases s c Hb)
    as [-> | (r & v & _ & _ & _ & _ & -> & _)];
    [exact Hs | apply call_result_status].
Qed.

Lemma status_play (calls : list api_call) (s : t) :
  inv s -> game_state s = status_of s ->
  game_state (play calls s) = status_of (play calls s).
Proof.
  revert s. induction calls as [| c calls IH]; intros s Hinv Hs; simpl.
  - exact Hs.
  - apply IH; [apply inv_perform; exact Hinv |].
    apply status_perform; [apply Hinv | exact Hs].
Qed.

Lemma win_status_of (s : t) :
  win_state (status_of s) <->
  6 <= Player.get_captured (player1 s) \/ 6 <= Player.get_captured (player2 s).
Proof.
  unfold win_state, status_of.
  destruct (6 <=? Player.get_captured (player1 s)) eqn:E1;
    [apply Z.leb_le in E1; intuition |].
  destruct (6 <=? Player.get_captured (player2 s)) eqn:E2;
    [apply Z.leb_le in E2; intuition |].
  apply Z.leb_gt in E1, E2.
  split; [intros [H | H]; discriminate | lia].
Qed.

(** X6. In every game, after any sequence of calls, the status the engine
    holds is the one [determine_game_state] computes from the capture
    counts: it is "IN PROGRESS" exactly when both players have captured
    fewer than six pieces, and a win status otherwise. *)
Theorem status_is_up_to_date (player1 player2 : string * string)
    (calls : list api_call) :
  let s := play calls (init player1 player2) in
  determine_game_state s = Ret (game_state s) s /\
  (game_state s = "IN PROGRESS"%string <->
   Player.get_captured (FocusGame.player1 s) < 6 /\
   Player.get_captured (FocusGame.player2 s) < 6) /\
  (game_state s <> "IN PROGRESS"%string -> win_state (game_state s)).
Proof.
  intros s.
  assert (Hs : game_state s = status_of s)
    by (apply status_play; [apply inv_init | reflexivity]).
  split; [rewrite determine_game_state_run, Hs; reflexivity |].
  rewrite Hs. unfold status_of, win_state.
  destruct (6 <=? Player.get_captured (FocusGame.player1 s)) eqn:E1;
    [apply Z.leb_le in E1 | apply Z.leb_gt in E1].
  { split; [split; [discriminate | lia] | auto]. }
  destruct (6 <=? Player.get_captured (FocusGame.player2 s)) eqn:E2;
    [apply Z.leb_le in E2 | apply Z.leb_gt in E2].
  { split; [split; [discriminate | lia] | auto]. }
  split; [split; [lia | reflexivity] | congruence].
Qed.

Lemma captured_perform (s : t) (c : api_call) (r' : pref) :
  six_by_six (board s) ->
  Player.get_captured (deref r' s)
    <= Player.get_captured (deref r' (perform s c)).
Proof.
  intros Hb.
  destruct (perform_cases s c Hb)
    as [-> | (r & v & _ & _ & _ & _ & -> & _)];
    [lia | apply captured_grows].
Qed.

Lemma win_play (calls : list api_call) (s : t) :
  inv s -> game_state s = status_of s -> win_state (game_state s) ->
  win_state (game_state (play calls s)).
Proof.
  revert s. induction calls as [| c calls IH]; intros s Hinv Hs Hw; simpl.
  - exact Hw.
  - assert (Hs' : game_state (perform s c) = status_of (perform s c))
      by (apply status_perform; [apply Hinv | exact Hs]).
    apply IH; [apply inv_perform; exact Hinv | exact Hs' |].
    rewrite Hs'. rewrite Hs in Hw. apply win_status_of in Hw.
    apply win_status_of.
    pose proof (captured_perform s c P1 (proj1 (proj1 Hinv))) as H1.
    pose proof (captured_perform s c P2 (proj1 (proj1 Hinv))) as H2.
    simpl in H1, H2. lia.
Qed.

(** X7. A win is never taken back: once the status of a game is a win
    status, it is a win status after every further sequence of calls
    (capture counts never go down, also when a reserve play is accepted
    after the win). *)
Theorem win_is_never_taken_back (player1 player2 : string * string)
    (before after : list api_call) :
  let s := play before (init player1 player2) in
  win_state (game_state s) ->
  win_state (game_state (play after s)).
Proof.
  intros s Hw.
  apply win_play; [apply inv_play, inv_init | | exact Hw].
  apply status_play; [apply inv_init | reflexivity].
Qed.

Lemma win_is_never_taken_back_witness :
  let s := play winning_game (init ("A", "R") ("B", "G"))%string in
  win_state (game_state s) /\
  win_state (game_state (play [ReservedMove "B" (0, 0)] s)).
Proof.
  intros s.
  assert (H : win_state (game_state s)) by (left; vm_compute; reflexivity).
  split; [exact H |].
  exact (win_is_never_taken_back ("A", "R")%string ("B", "G")%string
           winning_game [ReservedMove "B" (0, 0)] H).
Defined.

(** ** FocusGame.py: reserve plays *)

(** X8. A call to [reserved_move] that returns [False] leaves the state as
    it was, and it is returned to a player of the game who has no piece in
    reserve, or whose turn it is not, or who names a tile off the board. *)
Theorem reserved_move_rejection_changes_nothing (p : string) (d : Z * Z)
    (s s' : t) :
  reserved_move p d s = Ret (PyBool false) s' ->
  s' = s /\
  exists r, players s !! p = Some r /\
            (Player.get_reserve (deref r s) = 0 \/
             p <> current_player_turn s \/ ~ on_board d).
Proof.
  intros H. rewrite reserved_move_unfold in H.
  rewrite bind_players_getitem in H.
  destruct (players s !! p) as [r |]; [| discriminate].
  rewrite bind_show_pieces in H.
  destruct (Board.return_stack (board s) d) as [to_stack |]; [| discriminate].
  rewrite bind_gets in H.
  destruct (Player.get_reserve (deref r s) =? 0) eqn:Hz.
  { injection H as <-. apply Z.eqb_eq in Hz. eauto. }
  rewrite bind_gets in H.
  destruct (decide (p <> current_player_turn s)) as [Hp | _].
  { injection H as <-. eauto 6. }
  destruct (existsb _ _) eqn:Hd.
  { injection H as <-. split; [reflexivity |]. exists r.
    split; [reflexivity |]. right. right. intros Hon.
    apply on_board_in_0_to_5 in Hon as [H1 H2].
    cbn [existsb] in Hd. rewrite H1, H2 in Hd. discriminate. }
  rewrite bind_modify, bind_gets in H.
  apply bind_inv in H as (new_stack & s1 & _ & H).
  apply bind_inv in H as (new_stack' & s2 & _ & H).
  apply bind_inv in H as ([] & s3 & _ & H).
  rewrite end_of_turn_run in H. injection H as H _.
  exfalso. exact (report_True_not_False _ H).
Qed.

(** Player A has nothing in reserve when the game starts. *)
Lemma reserved_move_rejection_changes_nothing_witness :
  reserved_move "A" (0, 0) new_game = Ret (PyBool false) new_game /\
  Player.get_reserve (player1 new_game) = 0.
Proof.
  assert (H : reserved_move "A" (0, 0) new_game = Ret (PyBool false) new_game)
    by reflexivity.
  split; [exact H |].
  destruct (reserved_move_rejection_changes_nothing _ _ _ _ H) as [_ _].
  reflexivity.
Defined.

(** X9. A reserve play by the turn holder with a piece in reserve onto a
    tile of the board is accepted, whatever the status of the game: the
    tile gets the player's colour on top and keeps its top five pieces,
    every other tile is as before, and if the tile had fewer than five
    pieces the only change of the counters is one piece less in the
    player's reserve. *)
Theorem reserve_play_effect (p : string) (r : pref) (d : Z * Z) (s : t) :
  six_by_six (board s) ->
  players s !! p = Some r ->
  Player.get_reserve (deref r s) <> 0 ->
  p = current_player_turn s ->
  on_board d ->
  exists v s',
    reserved_move p d s = Ret v s' /\ v <> PyBool false /\
    tile (board s') d =
      top5 (tile (board s) d ++ [Player.get_color (deref r s)]) /\
    (forall rc, on_board rc -> rc <> d ->
                tile (board s') rc = tile (board s) rc) /\
    ((length (tile (board s) d) < 5)%nat ->
     tile (board s') d = tile (board s) d ++ [Player.get_color (deref r s)] /\
     player1 s' = player1 (update r Player.play_from_reserve s) /\
     player2 s' = player2 (update r Player.play_from_reserve s)).
Proof.
  intros Hb Hr Hres Hp Hd.
  exists (report (PyBool true) (reserve_result r d s)), (reserve_result r d s).
  split; [apply reserved_move_run; assumption |].
  split; [apply report_True_not_False |].
  set (new := tile (board s) d ++ [Player.get_color (deref r s)]).
  assert (Hboard : board (reserve_result r d s)
                   = set_tile (board s) d (top5 new)).
  { unfold reserve_result. fold new.
    match goal with
    | |- context [finish ?x] => destruct (finish_players x) as (_ & _ & E & _)
    end.
    rewrite E. reflexivity. }
  rewrite Hboard.
  split; [apply tile_set_tile_same; assumption |].
  split; [intros rc Hrc Hne; apply tile_set_tile_other; auto |].
  intros Hlen.
  assert (Hnew : (length new - 5 = 0)%nat)
    by (unfold new; rewrite length_app; simpl; lia).
  split.
  { rewrite tile_set_tile_same by assumption. unfold top5. rewrite Hnew.
    reflexivity. }
  destruct (call_result_players r (ReservedMove p d) s) as [E1 E2].
  simpl call_result in E1, E2. rewrite E1, E2.
  simpl landing. fold new. unfold overflow. rewrite Hnew. split; reflexivity.
Qed.

(** Player B's reserve play on the empty tile (0,0) of the won game. *)
Lemma reserve_play_effect_witness :
  exists v s',
    reserved_move "B" (0, 0) game_won = Ret v s' /\ v <> PyBool false /\
    tile (board s') (0, 0) =
      top5 (tile (board game_won) (0, 0)
              ++ [Player.get_color (deref P2 game_won)]).
Proof.
  assert (Hb : six_by_six (board game_won))
    by (split; [vm_compute; reflexivity | vm_compute; repeat constructor]).
  assert (Hr : players game_won !! "B"%string = Some P2)
    by (vm_compute; reflexivity).
  assert (Hres : Player.get_reserve (deref P2 game_won) <> 0)
    by (vm_compute; discriminate).
  assert (Hp : "B"%string = current_player_turn game_won)
    by (vm_compute; reflexivity).
  assert (Hd : on_board (0, 0)) by (unfold on_board; simpl; lia).
  destruct (reserve_play_effect "B" P2 (0, 0) game_won Hb Hr Hres Hp Hd)
    as (v & s' & Hrun & Hv & Ht & _).
  exists v, s'. split; [exact Hrun |]. split; [exact Hv | exact Ht].
Defined.

(** ** FocusGame.py: moves *)

Lemma last_drop {A : Type} (l : list A) (x : A) :
  last l = Some x -> drop (length l - 1) l = [x].
Proof.
  intros H. destruct l as [| y l] using rev_ind; [discriminate |].
  rewrite last_snoc in H. injection H as ->.
  rewrite length_app. simpl.
  replace (length l + 1 - 1)%nat with (length l) by lia.
  apply drop_app_length.
Qed.

(** X10. An accepted [move_piece] was asked by the turn holder of a game
    in progress, between two tiles of the board, from a stack that is not
    empty and has the caller's colour on top, for a number of pieces
    between 0 and the height of that stack that equals the row distance
    or the column distance of the two tiles. *)
Theorem accepted_move_passed_every_test (p : string) (f d : Z * Z) (n : Z)
    (s s' : t) (v : pyval) :
  move_piece p f d n s = Ret v s' -> v <> PyBool false ->
  on_board f /\ on_board d /\
  game_state s = "IN PROGRESS"%string /\
  p = current_player_turn s /\
  exists F r,
    show_pieces f s = Ret (PyList F) s /\
    players s !! p = Some r /\
    last F = Some (Player.get_color (deref r s)) /\
    0 <= n <= Z.of_nat (length F) /\
    geometry f d n.
Proof.
  intros H Hv. rewrite move_piece_unfold in H.
  apply bind_inv in H as (valid & s1 & Hval & H).
  destruct valid; cbn [negb] in H; [| injection H as <- _; congruence].
  destruct (validation_inv _ _ _ _ _ _ Hval)
    as (_ & Hf & Hd & Hgs & Hp & F & r & HF & Hr & Hlast & Hn & Hg).
  repeat (split; [assumption |]).
  exists F, r. repeat (split; [first [assumption | idtac] |]); try assumption.
  unfold show_pieces. rewrite bind_gets, HF. reflexivity.
Qed.

(** The first move of the sample game. *)
Lemma accepted_move_passed_every_test_witness :
  move_piece "A" (0, 5) (1, 5) 1 new_game
    = Ret (PyStr "successfully moved") (perform new_game (MovePiece "A" (0, 5) (1, 5) 1)) /\
  "A"%string = current_player_turn new_game /\
  geometry (0, 5) (1, 5) 1.
Proof.
  assert (H : move_piece "A" (0, 5) (1, 5) 1 new_game
              = Ret (PyStr "successfully moved")
                  (perform new_game (MovePiece "A" (0, 5) (1, 5) 1)))
    by (vm_compute; reflexivity).
  split; [exact H |].
  assert (Hv : PyStr "successfully moved" <> PyBool false) by discriminate.
  destruct (accepted_move_passed_every_test _ _ _ _ _ _ _ H Hv)
    as (_ & _ & _ & Hp & F & r & _ & _ & _ & _ & Hg).
  split; [exact Hp | exact Hg].
Defined.

(** X11. What an accepted move of at least one piece does to the board:
    the source tile keeps its pieces but the top [n], the destination tile
    gets these [n] pieces in order on top of its own and keeps the top five
    of the result, and every other tile is as before; if the destination
    ends with five pieces or fewer, no counter of a player changes. *)
Theorem move_effect (p : string) (f d : Z * Z) (n : Z) (s s' : t)
    (v : pyval) :
  six_by_six (board s) ->
  move_piece p f d n s = Ret v s' -> v <> PyBool false ->
  1 <= n ->
  let F := tile (board s) f in
  let D := tile (board s) d in
  let k := (length F - Z.to_nat n)%nat in
  f <> d /\
  tile (board s') f = take k F /\
  tile (board s') d = top5 (D ++ drop k F) /\
  (forall rc, on_board rc -> rc <> f -> rc <> d ->
              tile (board s') rc = tile (board s) rc) /\
  ((length D + Z.to_nat n <= 5)%nat ->
   tile (board s') d = D ++ drop k F /\
   player1 s' = player1 s /\ player2 s' = player2 s).
Proof.
  intros Hb H Hv Hn F D k.
  destruct (move_piece_cases p f d n s Hb)
    as [[e He] | [He | (r & Hr & Hval & He)]];
    rewrite He in H; [discriminate | congruence |].
  injection H as _ <-.
  destruct (validation_inv _ _ _ _ _ _ Hval)
    as (_ & Hf & Hd & _ & _ & F' & r' & HF & Hr' & Hlast & HnF & Hg).
  rewrite return_stack_on_board in HF by assumption.
  injection HF as HF. fold F in HF. subst F'.
  assert (r' = r) by congruence. subst r'.
  assert (Hfd : f <> d).
  { intros ->. unfold geometry in Hg. rewrite !Z.sub_diag in Hg.
    simpl in Hg. lia. }
  assert (Hold : py_slice F 0 (Z.of_nat (length F) - n) = take k F)
    by (apply py_slice_prefix; lia).
  assert (Hmoved : (if n =? 1 then [Player.get_color (deref r s)]
                    else py_slice_from F (- n)) = drop k F).
  { destruct (n =? 1) eqn:E.
    - apply Z.eqb_eq in E. subst n. unfold k.
      symmetry. apply last_drop. exact Hlast.
    - apply py_slice_from_top. lia. }
  assert (Hboard : board (move_result r f d n s)
                   = set_tile (set_tile (board s) f (take k F)) d
                       (top5 (D ++ drop k F))).
  { unfold move_result. fold F D. rewrite Hold, Hmoved.
    match goal with
    | |- context [finish ?x] => destruct (finish_players x) as (_ & _ & E & _)
    end.
    rewrite E. apply board_place. }
  rewrite Hboard.
  split; [exact Hfd |].
  split.
  { rewrite tile_set_tile_other by auto.
    apply tile_set_tile_same; assumption. }
  split.
  { apply tile_set_tile_same;
      [apply six_by_six_set_tile; assumption | assumption]. }
  split.
  { intros rc Hrc Hnf Hnd.
    rewrite tile_set_tile_other by auto.
    apply tile_set_tile_other; auto. }
  intros Hlen.
  assert (Hnew : (length (D ++ drop k F) - 5 = 0)%nat).
  { rewrite length_app, length_drop. unfold k. lia. }
  split.
  { rewrite tile_set_tile_same
      by (try apply six_by_six_set_tile; assumption).
    unfold top5. rewrite Hnew. reflexivity. }
  destruct (call_result_players r (MovePiece p f d n) s) as [E1 E2].
  simpl call_result in E1, E2. rewrite E1, E2.
  simpl landing. fold F D. rewrite Hmoved. unfold overflow. rewrite Hnew.
  split; reflexivity.
Qed.

(** Player B moves the four pieces of (3,1) onto (3,5). *)
Lemma move_effect_witness :
  let s := play (take 7 winning_game) new_game in
  let s' := perform s (MovePiece "B" (3, 1) (3, 5) 4) in
  tile (board s) (3, 1) = ["G"; "G"; "G"; "G"]%string /\
  tile (board s') (3, 1) =
    take (length (tile (board s) (3, 1)) - Z.to_nat 4) (tile (board s) (3, 1)) /\
  tile (board s') (3, 5) = ["G"; "G"; "G"; "G"; "G"]%string.
Proof.
  intros s s'.
  assert (Hb : six_by_six (board s))
    by (split; [vm_compute; reflexivity | vm_compute; repeat constructor]).
  assert (H : move_piece "B" (3, 1) (3, 5) 4 s
              = Ret (PyStr "successfully moved") s')
    by (vm_compute; reflexivity).
  assert (Hv : PyStr "successfully moved" <> PyBool false) by discriminate.
  assert (Hn : 1 <= 4) by lia.
  split; [vm_compute; reflexivity |].
  split; [exact (proj1 (proj2 (move_effect _ _ _ _ _ _ _ Hb H Hv Hn))) |].
  vm_compute. reflexivity.
Defined.

(** An accepted call is made by the turn holder, who is in the dict, and
    leaves the state [call_result]. *)
Lemma accepted_call_result (c : api_call) (s s' : t) (v : pyval) :
  six_by_six (board s) ->
  invoke c s = Ret v s' -> v <> PyBool false ->
  exists r, players s !! caller c = Some r /\
            caller c = current_player_turn s /\
            s' = call_result r c s.
Proof.
  intros Hb H Hv. destruct c as [p f d n | p d]; simpl in *.
  - destruct (move_piece_cases p f d n s Hb)
      as [[e He] | [He | (r & Hr & Hval & He)]];
      rewrite He in H; [discriminate | congruence |].
    injection H as _ <-.
    destruct (validation_inv _ _ _ _ _ _ Hval) as (_ & _ & _ & _ & Hp & _).
    eauto.
  - destruct (reserved_move_cases p d s Hb)
      as [[e He] | [He | (r & Hr & _ & Hp & _ & He)]];
      rewrite He in H; [discriminate | congruence |].
    injection H as _ <-. eauto.
Qed.

(** X12. An accepted call changes no counter of the player who did not
    make it: what overflows goes to the caller's reserve or captures
    only. *)
Theorem opponent_counters_unchanged (c : api_call) (s s' : t) (v : pyval)
    (r r' : pref) :
  six_by_six (board s) ->
  invoke c s = Ret v s' -> v <> PyBool false ->
  players s !! caller c = Some r -> r' <> r ->
  deref r' s' = deref r' s.
Proof.
  intros Hb H Hv Hr Hne.
  destruct (accepted_call_result c s s' v Hb H Hv) as (r0 & Hr0 & _ & ->).
  assert (r0 = r) by congruence. subst r0.
  rewrite call_result_deref, credit_other by exact Hne.
  destruct c, r, r'; try reflexivity; contradiction.
Qed.

(** Player A's capture of two pieces leaves player B's record alone. *)
Lemma opponent_counters_unchanged_witness :
  let s := play (take 10 winning_game) new_game in
  let c := MovePiece "A" (1, 5) (3, 5) 2 in
  let s' := perform s c in
  Player.get_captured (player1 s') = 2 /\
  deref P2 s' = deref P2 s.
Proof.
  intros s c s'.
  assert (Hb : six_by_six (board s))
    by (split; [vm_compute; reflexivity | vm_compute; repeat constructor]).
  assert (H : invoke c s = Ret (PyStr "successfully moved") s')
    by (vm_compute; reflexivity).
  assert (Hv : PyStr "successfully moved" <> PyBool false) by discriminate.
  assert (Hr : players s !! caller c = Some P1) by (vm_compute; reflexivity).
  assert (Hne : P2 <> P1) by discriminate.
  split; [vm_compute; reflexivity |].
  exact (opponent_counters_unchanged c s s' _ P1 P2 Hb H Hv Hr Hne).
Defined.

(** ** FocusGame.py: turns and players over a game *)

Lemma call_result_finish (r : pref) (c : api_call) (s : t) :
  exists x, call_result r c s = finish x /\ same_seats s x.
Proof.
  destruct c as [p f d n | p d]; simpl;
    unfold move_result, reserve_result; eexists; (split; [reflexivity |]).
  - apply same_seats_place.
  - transitivity (update r Player.play_from_reserve s);
      [apply same_seats_update; reflexivity |].
    etransitivity; [apply same_seats_credit |]. apply same_seats_set_board.
Qed.

Lemma call_result_turn (r : pref) (c : api_call) (s : t) :
  current_player_turn (call_result r c s) =
  if decide (current_player_turn s = Player.get_name (player1 s))
  then Player.get_name (player2 s) else Player.get_name (player1 s).
Proof.
  destruct (call_result_finish r c s)
    as (x & -> & (Ht & _ & _ & Hn1 & Hn2 & _ & _)).
  rewrite finish_turn, Ht, Hn1, Hn2. reflexivity.
Qed.

Lemma same_players_call_result (r : pref) (c : api_call) (s : t) :
  same_players s (call_result r c s).
Proof.
  destruct (call_result_finish r c s)
    as (x & -> & (_ & _ & Hp & Hn1 & Hn2 & Hc1 & Hc2)).
  destruct (finish_players x) as (E1 & E2 & _ & E4).
  unfold same_players. rewrite E1, E2, E4. auto.
Qed.

Lemma same_players_refl (s : t) : same_players s s.
Proof. unfold same_players. auto. Qed.

Lemma same_players_trans (s1 s2 s3 : t) :
  same_players s1 s2 -> same_players s2 s3 -> same_players s1 s3.
Proof.
  unfold same_players.
  intros (? & ? & ? & ? & ?) (? & ? & ? & ? & ?). repeat split; congruence.
Qed.

Lemma same_players_perform (s : t) (c : api_call) :
  six_by_six (board s) -> same_players s (perform s c).
Proof.
  intros Hb.
  destruct (perform_cases s c Hb)
    as [-> | (r & v & _ & _ & _ & _ & -> & _)];
    [apply same_players_refl | apply same_players_call_result].
Qed.

Lemma same_players_play (calls : list api_call) (s : t) :
  inv s -> same_players s (play calls s).
Proof.
  revert s. induction calls as [| c calls IH]; intros s Hinv; simpl.
  - apply same_players_refl.
  - eapply same_players_trans;
      [apply same_players_perform, Hinv | apply IH, inv_perform, Hinv].
Qed.

(** X13. Turns alternate: in a game between two players of different
    names, a player whose call was accepted cannot have the next accepted
    call; that one is the other player's, and it gives the turn back. *)
Theorem turns_alternate (n1 c1 n2 c2 : string) (calls : list api_call)
    (a b : api_call) (s1 s2 : t) (v1 v2 : pyval) :
  n1 <> n2 ->
  let s := play calls (init (n1, c1) (n2, c2)) in
  invoke a s = Ret v1 s1 -> v1 <> PyBool false ->
  invoke b s1 = Ret v2 s2 -> v2 <> PyBool false ->
  caller b <> caller a /\ current_player_turn s2 = caller a.
Proof.
  intros Hne s Ha Hv1 Hb Hv2.
  assert (Hinv : inv s) by apply inv_play, inv_init.
  destruct (same_players_play calls _ (inv_init (n1, c1) (n2, c2)))
    as (_ & Hn1 & Hn2 & _). fold s in Hn1, Hn2. simpl in Hn1, Hn2.
  destruct (accepted_call_result a s s1 v1 (proj1 (proj1 Hinv)) Ha Hv1)
    as (r & _ & Hca & Hs1).
  assert (Hinv1 : inv s1)
    by (rewrite <- (invoke_perform _ _ _ _ Ha); apply inv_perform, Hinv).
  destruct (accepted_call_result b s1 s2 v2 (proj1 (proj1 Hinv1)) Hb Hv2)
    as (r' & _ & Hcb & Hs2).
  assert (Ht1 : current_player_turn s1 =
                if decide (current_player_turn s = n1) then n2 else n1)
    by (rewrite Hs1, call_result_turn, Hn1, Hn2; reflexivity).
  destruct (same_players_call_result r a s) as (_ & Hm1 & Hm2 & _).
  rewrite <- Hs1 in Hm1, Hm2. rewrite Hn1 in Hm1. rewrite Hn2 in Hm2.
  assert (Ht2 : current_player_turn s2 =
                if decide (current_player_turn s1 = n1) then n2 else n1)
    by (rewrite Hs2, call_result_turn, Hm1, Hm2; reflexivity).
  destruct Hinv as [(_ & _ & Hturn) _]. rewrite Hn1, Hn2 in Hturn.
  rewrite Hca, Hcb, Ht2, Ht1.
  destruct (decide (current_player_turn s = n1)) as [E | E].
  - destruct (decide (n2 = n1)); [congruence |]. split; congruence.
  - destruct (decide (n1 = n1)); [| congruence].
    destruct Hturn; [congruence |]. split; congruence.
Qed.

(** The first two moves of the sample game. *)
Lemma turns_alternate_witness :
  let a := MovePiece "A" (0, 5) (1, 5) 1 in
  let b := MovePiece "B" (1, 0) (1, 1) 1 in
  let s := play [] (init ("A", "R") ("B", "G"))%string in
  let s1 := perform s a in
  let s2 := perform s1 b in
  invoke a s = Ret (PyStr "successfully moved") s1 /\
  invoke b s1 = Ret (PyStr "successfully moved") s2 /\
  caller b <> caller a /\ current_player_turn s2 = caller a.
Proof.
  intros a b s s1 s2.
  assert (Hne : "A"%string <> "B"%string) by discriminate.
  assert (Ha : invoke a s = Ret (PyStr "successfully moved") s1)
    by (vm_compute; reflexivity).
  assert (Hb : invoke b s1 = Ret (PyStr "successfully moved") s2)
    by (vm_compute; reflexivity).
  assert (Hv : PyStr "successfully moved" <> PyBool false) by discriminate.
  split; [exact Ha |]. split; [exact Hb |].
  exact (turns_alternate "A" "R" "B" "G" [] a b s1 s2 _ _ Hne Ha Hv Hb Hv).
Defined.

(** X14. [show_reserve] and [show_captured] answer by the names given when
    the game was created, at any point of the game: the first player's
    count for the first name, the second player's for the second name if
    it differs from the first, and [False] for any other name. *)
Theorem counts_are_shown_by_name (n1 c1 n2 c2 p : string)
    (calls : list api_call) :
  let s := play calls (init (n1, c1) (n2, c2)) in
  show_reserve p s =
    Ret (if decide (n1 = p) then PyInt (Player.get_reserve (player1 s))
         else if decide (n2 = p) then PyInt (Player.get_reserve (player2 s))
         else PyBool false) s /\
  show_captured p s =
    Ret (if decide (n1 = p) then PyInt (Player.get_captured (player1 s))
         else if decide (n2 = p) then PyInt (Player.get_captured (player2 s))
         else PyBool false) s.
Proof.
  intros s.
  destruct (same_players_play calls _ (inv_init (n1, c1) (n2, c2)))
    as (_ & Hn1 & Hn2 & _). fold s in Hn1, Hn2. simpl in Hn1, Hn2.
  unfold show_reserve, show_captured.
  split; rewrite bind_gets, Hn1;
    (destruct (decide (n1 = p)); [reflexivity |]);
    rewrite bind_gets, Hn2; destruct (decide (n2 = p)); reflexivity.
Qed.

Lemma same_name_dict (n k : string) (r : pref) :
  (<[n := P2]> (<[n := P1]> (∅ : gmap string pref))) !! k = Some r -> r = P2.
Proof.
  rewrite insert_insert_eq. rewrite lookup_insert.
  destruct (decide (n = k)); [congruence | rewrite lookup_empty; discriminate].
Qed.

Lemma player1_perform (s : t) (c : api_call) :
  six_by_six (board s) ->
  (forall k r, players s !! k = Some r -> r = P2) ->
  player1 (perform s c) = player1 s.
Proof.
  intros Hb Hdict.
  destruct (perform_cases s c Hb)
    as [-> | (r & v & Hr & _ & _ & _ & -> & _)]; [reflexivity |].
  apply Hdict in Hr. subst r.
  change (deref P1 (call_result P2 c s) = deref P1 s).
  rewrite call_result_deref, credit_other by discriminate.
  destruct c; reflexivity.
Qed.

(** X15. Two players of the same name: the dict keeps one entry, the second
    player's, so every accepted call plays the second player's colour and
    is credited to the second player; the first player's record never
    changes, and [show_reserve] and [show_captured] answer 0 for the name
    throughout the game. *)
Theorem same_name_hides_the_counts (n c1 c2 : string)
    (calls : list api_call) :
  let s := play calls (init (n, c1) (n, c2)) in
  player1 s = Player.init n c1 /\
  show_reserve n s = Ret (PyInt 0) s /\
  show_captured n s = Ret (PyInt 0) s.
Proof.
  intros s.
  assert (H : forall s0, inv s0 ->
                (forall k r, players s0 !! k = Some r -> r = P2) ->
                player1 (play calls s0) = player1 s0).
  { induction calls as [| c calls IH]; intros s0 Hinv Hdict; simpl.
    - reflexivity.
    - rewrite IH.
      + apply player1_perform; [apply Hinv | exact Hdict].
      + apply inv_perform, Hinv.
      + destruct (same_players_perform s0 c (proj1 (proj1 Hinv))) as [-> _].
        exact Hdict. }
  assert (Hp1 : player1 s = Player.init n c1).
  { unfold s. rewrite H; [reflexivity | apply inv_init |].
    intros k r. apply same_name_dict. }
  split; [exact Hp1 |].
  unfold show_reserve, show_captured. rewrite !bind_gets, Hp1. simpl.
  destruct (decide (n = n)); [| congruence]. split; reflexivity.
Qed.

(** ** FocusGame.py: the colours on the board *)

Lemma two_colors_py_slice (c1 c2 : string) (l : list string) (lo hi : Z) :
  two_colors c1 c2 l -> two_colors c1 c2 (py_slice l lo hi).
Proof. intros H. unfold py_slice. apply Forall_take, Forall_drop, H. Qed.

Lemma two_colors_py_slice_from (c1 c2 : string) (l : list string) (lo : Z) :
  two_colors c1 c2 l -> two_colors c1 c2 (py_slice_from l lo).
Proof. intros H. unfold py_slice_from. apply Forall_drop, H. Qed.

Lemma two_colors_perform (c1 c2 : string) (s : t) (c : api_call) :
  six_by_six (board s) ->
  Player.get_color (player1 s) = c1 -> Player.get_color (player2 s) = c2 ->
  all_tiles (two_colors c1 c2) (board s) ->
  all_tiles (two_colors c1 c2) (board (perform s c)).
Proof.
  intros Hb H1 H2 Hall.
  destruct (perform_cases s c Hb)
    as [-> | (r & v & _ & _ & _ & _ & -> & _)]; [exact Hall |].
  assert (Hcol : two_colors c1 c2 [Player.get_color (deref r s)]).
  { constructor; [| constructor]. destruct r; simpl; auto. }
  assert (Htile : forall rc, two_colors c1 c2 (tile (board s) rc))
    by (intros rc; apply all_tiles_tile; [exact Hall | constructor]).
  destruct c as [p f d n | p d];
    unfold call_result, move_result, reserve_result;
    match goal with
    | |- context [finish ?x] => destruct (finish_players x) as (_ & _ & E & _)
    end; rewrite E; simpl board.
  - repeat apply all_tiles_set_tile; try exact Hall.
    + apply two_colors_py_slice, Htile.
    + unfold top5. apply Forall_drop, Forall_app. split; [apply Htile |].
      destruct (n =? 1); [exact Hcol | apply two_colors_py_slice_from, Htile].
  - apply all_tiles_set_tile; [exact Hall |].
    unfold top5. apply Forall_drop, Forall_app. split; [apply Htile | exact Hcol].
Qed.

(** X16. Every piece on the board is of one of the two colours given when
    the game was created, after any sequence of calls. *)
Theorem only_the_two_colors (n1 c1 n2 c2 : string) (calls : list api_call) :
  all_tiles (two_colors c1 c2)
    (board (play calls (init (n1, c1) (n2, c2)))).
Proof.
  assert (H : forall s, inv s ->
                Player.get_color (player1 s) = c1 ->
                Player.get_color (player2 s) = c2 ->
                all_tiles (two_colors c1 c2) (board s) ->
                all_tiles (two_colors c1 c2) (board (play calls s))).
  { induction calls as [| c calls IH]; intros s Hinv H1 H2 Hall; simpl.
    - exact Hall.
    - destruct (same_players_perform s c (proj1 (proj1 Hinv)))
        as (_ & _ & _ & E1 & E2).
      apply IH; [apply inv_perform, Hinv | congruence | congruence |].
      apply two_colors_perform; try assumption. apply Hinv. }
  apply H; [apply inv_init | reflexivity | reflexivity |].
  unfold all_tiles, two_colors. simpl.
  repeat match goal with
         | |- Forall _ _ => constructor
         | |- _ \/ _ => auto
         end.
Qed.

(** ** FocusGame.py: [resolve_stacks] without its callers' test *)

(** X17. [resolve_stacks] relies on its callers' test [len > 5]: called for
    a known player with a stack of fewer than five pieces it credits
    nothing and returns [input_stack[len - 5:]], a slice with a negative
    start, which for three or four pieces is not the whole stack. *)
Theorem resolve_stacks_needs_the_guard (l : list string) (p : string)
    (r : pref) (s : t) :
  players s !! p = Some r -> (length l < 5)%nat ->
  resolve_stacks l p s = Ret (drop (2 * length l - 5) l) s.
Proof.
  intros Hr Hl. unfold resolve_stacks.
  rewrite bind_players_getitem, Hr.
  assert (Hseq : seqZ 0 (Z.of_nat (length l) - 5) = []).
  { unfold seqZ. replace (Z.to_nat (Z.of_nat (length l) - 5)) with 0%nat by lia.
    reflexivity. }
  rewrite Hseq. simpl for_each. rewrite bind_ret.
  unfold py_slice_from, py_slice_bound.
  replace (Z.of_nat (length l) - 5 <? 0) with true
    by (symmetry; apply Z.ltb_lt; lia).
  unfold ret. f_equal. f_equal. lia.
Qed.

Lemma resolve_stacks_needs_the_guard_witness :
  resolve_stacks ["R"; "G"; "R"; "G"]%string "A" new_game =
    Ret ["G"%string] new_game.
Proof.
  assert (Hr : players new_game !! "A"%string = Some P1) by reflexivity.
  assert (Hl : (length ["R"; "G"; "R"; "G"]%string < 5)%nat) by (simpl; lia).
  exact (resolve_stacks_needs_the_guard _ "A" P1 new_game Hr Hl).
Defined.

(** ** Witnesses of the rejections *)

(** A request that is off by a knight's move. *)
Lemma failed_test_rejects_witness :
  wf new_game /\ ~ geometry (0, 0) (2, 3) 1 /\
  move_piece "A" (0, 0) (2, 3) 1 new_game = Ret (PyBool false) new_game.
Proof.
  assert (Hwf : wf new_game).
  { split; [split; [reflexivity | repeat constructor] |].
    split; [reflexivity | left; reflexivity]. }
  assert (Hg : ~ geometry (0, 0) (2, 3) 1)
    by (unfold geometry; simpl; lia).
  split; [exact Hwf |]. split; [exact Hg |].
  apply (failed_test_rejects "A" (0, 0) (2, 3) 1 new_game Hwf).
  do 8 right. exact Hg.
Defined.

(** The won game takes no move. *)
Lemma move_piece_rejected_once_over_witness :
  game_state game_won <> "IN PROGRESS"%string /\
  move_piece "B" (0, 3) (1, 3) 1 game_won = Ret (PyBool false) game_won.
Proof.
  assert (H : game_state game_won <> "IN PROGRESS"%string)
    by (vm_compute; discriminate).
  split; [exact H |].
  exact (move_piece_rejected_once_over "B" (0, 3) (1, 3) 1 game_won H).
Defined.

(** ** FocusGame.py: the dict of players and the first call *)

Lemma reserved_move_returns_for_player (p : string) (r : pref) (d : Z * Z)
    (s : t) :
  six_by_six (board s) -> players s !! p = Some r ->
  exists v s', reserved_move p d s = Ret v s'.
Proof.
  intros Hb Hr.
  destruct (decide (Player.get_reserve (deref r s) <> 0
                    /\ p = current_player_turn s /\ on_board d))
    as [(Hz & Hp & Hd) | Hno].
  { rewrite (reserved_move_run p r d s) by assumption. eauto. }
  rewrite reserved_move_unfold, bind_players_getitem, Hr, bind_show_pieces.
  assert (Hrs : exists x, Board.return_stack (board s) d = Ok x).
  { destruct (decide (on_board d)).
    - rewrite return_stack_on_board by assumption. eauto.
    - rewrite return_stack_off_board by assumption. eauto. }
  destruct Hrs as [x ->]. rewrite bind_gets.
  destruct (Player.get_reserve (deref r s) =? 0) eqn:Hz; [unfold ret; eauto |].
  apply Z.eqb_neq in Hz. rewrite bind_gets.
  destruct (decide (p <> current_player_turn s)) as [| Hp]; [unfold ret; eauto |].
  apply dec_stable in Hp.
  destruct (existsb _ _) eqn:Hd; [unfold ret; eauto |].
  exfalso. apply Hno. repeat (split; [assumption |]).
  apply on_board_in_0_to_5. cbn [existsb] in Hd.
  rewrite !orb_false_iff, !negb_false_iff in Hd. tauto.
Qed.

(** X21. At any point of a game [reserved_move] raises for the names that
    are not a player's, and only for them: it raises KeyError, with the
    state as it was, when the name is none of the two given at creation,
    and returns a value when it is one of them. *)
Theorem reserved_move_raises_for_strangers_only (n1 c1 n2 c2 p : string)
    (d : Z * Z) (calls : list api_call) :
  let s := play calls (init (n1, c1) (n2, c2)) in
  if decide (p = n1 \/ p = n2)
  then exists v s', reserved_move p d s = Ret v s'
  else reserved_move p d s = Raise KeyError s.
Proof.
  intros s.
  assert (Hinv : inv s) by apply inv_play, inv_init.
  destruct (same_players_play calls _ (inv_init (n1, c1) (n2, c2)))
    as (Hp & _). fold s in Hp. simpl in Hp.
  destruct (decide (p = n1 \/ p = n2)) as [Hin | Hout].
  - assert (Hr : exists r, players s !! p = Some r).
    { rewrite Hp, lookup_insert. destruct (decide (n2 = p)); [eauto |].
      rewrite lookup_insert. destruct (decide (n1 = p)); [eauto |].
      destruct Hin; congruence. }
    destruct Hr as [r Hr].
    exact (reserved_move_returns_for_player p r d s (proj1 (proj1 Hinv)) Hr).
  - rewrite reserved_move_unfold, bind_players_getitem, Hp.
    rewrite lookup_insert_ne by (intros ->; apply Hout; auto).
    rewrite lookup_insert_ne by (intros ->; apply Hout; auto).
    rewrite lookup_empty. reflexivity.
Qed.

(** X22. The first accepted call of a game is a [move_piece] of the first
    player: the turn is the first player's and, both reserves being empty,
    no reserve play is accepted. *)
Theorem first_call_is_a_move_of_player1 (n1 c1 n2 c2 : string)
    (c : api_call) (s' : t) (v : pyval) :
  invoke c (init (n1, c1) (n2, c2)) = Ret v s' -> v <> PyBool false ->
  caller c = n1 /\
  exists f d n, c = MovePiece n1 f d n.
Proof.
  intros H Hv.
  pose proof (inv_init (n1, c1) (n2, c2)) as Hinv.
  destruct (accepted_call_result c _ s' v (proj1 (proj1 Hinv)) H Hv)
    as (r & _ & Hc & _).
  simpl in Hc. split; [exact Hc |].
  destruct c as [p f d n | p d]; simpl in Hc; [subst p; eauto |].
  exfalso. simpl in H.
  destruct (reserved_move_cases p d _ (proj1 (proj1 Hinv)))
    as [[e He] | [He | (r' & _ & Hres & _)]].
  - rewrite He in H. discriminate.
  - rewrite He in H. congruence.
  - apply Hres. destruct r'; reflexivity.
Qed.

Lemma first_call_is_a_move_of_player1_witness :
  let c := MovePiece "A" (0, 5) (1, 5) 1 in
  invoke c (init ("A", "R") ("B", "G"))%string
    = Ret (PyStr "successfully moved")
        (perform (init ("A", "R") ("B", "G"))%string c) /\
  caller c = "A"%string.
Proof.
  intros c.
  assert (H : invoke c (init ("A", "R") ("B", "G"))%string
              = Ret (PyStr "successfully moved")
                  (perform (init ("A", "R") ("B", "G"))%string c))
    by (vm_compute; reflexivity).
  assert (Hv : PyStr "successfully moved" <> PyBool false) by discriminate.
  split; [exact H |].
  exact (proj1 (first_call_is_a_move_of_player1 _ _ _ _ c _ _ H Hv)).
Defined.
